(** * AgroFlow sensor firmware (src/main.cpp): shallow embedding and properties

    The firmware is a single Arduino sketch for the ESP32.  Its functions are
    embedded below as Rocq functions: Arduino [String] values are Rocq
    strings, [byte] is [Byte.byte], C integers are [Z] (with the 32-bit and
    64-bit wrap-around written out where the sketch computes with them), the
    [Preferences] key-value store is a [gmap string string], and every
    interaction with the hardware (serial log, delays, pin reads, radio,
    broker) is recorded as an [event] in a trace. *)

From Stdlib Require Import ZArith NArith Ascii String List Lia Bool.
From stdpp Require Import gmap strings list.
Import ListNotations.

Local Open Scope string_scope.
Local Open Scope Z_scope.

(** ** Arduino core: the [String] operations the sketch uses *)

Module Arduino.

(** The double quote character, written by its code. *)
Definition dquote : ascii := "034"%char.

(** newlib's digit table of [utoa]. *)
Definition digits : string := "0123456789abcdefghijklmnopqrstuvwxyz".

Definition digit_char (r : N) : ascii :=
  match String.get (N.to_nat r) digits with
  | Some c => c
  | None => "?"%char
  end.

(** The do-while loop of [utoa]: digits come out least significant first and
    are pushed in front of [acc], which is the reversal the C code performs
    afterwards.  [fuel] bounds the number of iterations. *)
Fixpoint utoa_loop (fuel : nat) (value base : N) (acc : string) : string :=
  let acc' := String (digit_char (value mod base)%N) acc in
  let value' := (value / base)%N in
  match fuel with
  | O => acc'
  | S fuel' => if (value' =? 0)%N then acc' else utoa_loop fuel' value' base acc'
  end.

(** [utoa(value, buf, base)]: an unsupported base gives the empty string. *)
Definition utoa (value base : N) : string :=
  if ((base <? 2) || (36 <? base))%N then EmptyString
  else utoa_loop (N.to_nat (N.log2 value)) value base EmptyString.

Definition HEX : N := 16%N.
Definition DEC : N := 10%N.

(** [String(unsigned char value, unsigned char base)]. *)
Definition String_of_byte (b : Byte.byte) (base : N) : string :=
  utoa (Byte.to_N b) base.

(** [String(int value)]: signed decimal. *)
Definition String_of_int (v : Z) : string :=
  if v <? 0 then String "-"%char (utoa (Z.to_N (- v)) DEC)
  else utoa (Z.to_N v) DEC.

(** [toupper] on one character (C locale). *)
Definition toupper (c : ascii) : ascii :=
  let n := N_of_ascii c in
  if ((97 <=? n) && (n <=? 122))%N then ascii_of_N (n - 32) else c.

Definition tolower (c : ascii) : ascii :=
  let n := N_of_ascii c in
  if ((65 <=? n) && (n <=? 90))%N then ascii_of_N (n + 32) else c.

(** [String::toUpperCase()]. *)
Fixpoint toUpperCase (s : string) : string :=
  match s with
  | EmptyString => EmptyString
  | String c r => String (toupper c) (toUpperCase r)
  end.

Fixpoint toLowerCase (s : string) : string :=
  match s with
  | EmptyString => EmptyString
  | String c r => String (tolower c) (toLowerCase r)
  end.

(** [isspace] (C locale): space, and the controls 9..13. *)
Definition isspace (c : ascii) : bool :=
  let n := N_of_ascii c in
  ((n =? 32) || ((9 <=? n) && (n <=? 13)))%N.

Fixpoint drop_space (s : string) : string :=
  match s with
  | EmptyString => EmptyString
  | String c r => if isspace c then drop_space r else s
  end.

Definition rev_string (s : string) : string :=
  string_of_list_ascii (rev (list_ascii_of_string s)).

(** [String::trim()]: leading and trailing white space removed. *)
Definition trim (s : string) : string :=
  rev_string (drop_space (rev_string (drop_space s))).

(** [String::equalsIgnoreCase]. *)
Definition equalsIgnoreCase (a b : string) : bool :=
  String.eqb (toLowerCase a) (toLowerCase b).

(** [long map(long x, long in_min, long in_max, long out_min, long out_max)]
    of the ESP32 Arduino core.  [long] is 32 bits wide on this target; the
    wrap-around of the intermediate results is written out with [wrap32],
    and the division is C's, truncating towards zero. *)
Definition wrap32 (z : Z) : Z := (z + 2 ^ 31) mod 2 ^ 32 - 2 ^ 31.

Definition map (x in_min in_max out_min out_max : Z) : Z :=
  let run := wrap32 (in_max - in_min) in
  if run =? 0 then -1
  else
    let rise := wrap32 (out_max - out_min) in
    let delta := wrap32 (x - in_min) in
    wrap32 (Z.quot (wrap32 (delta * rise)) run + out_min).

(** The [constrain(amt, low, high)] macro. *)
Definition constrain (amt low high : Z) : Z :=
  if amt <? low then low else if amt >? high then high else amt.

End Arduino.

Import Arduino.

(** ** Identity: the loop at the top of [setup] *)

(** One iteration of [for (int i = 0; i < 6; i++)]: the pad and the digits of
    [mac[i]] are appended to [uniqueId]. *)
Definition uniqueId_step (uniqueId : string) (b : Byte.byte) : string :=
  let uniqueId := if (Byte.to_N b <? 16)%N then uniqueId +:+ "0" else uniqueId in
  uniqueId +:+ String_of_byte b HEX.

(** The spec's [derive_identity()]: the loop over the six bytes, started from
    the empty global [uniqueId], followed by [uniqueId.toUpperCase()]. *)
Definition derive_identity (mac : list Byte.byte) : string :=
  toUpperCase (fold_left uniqueId_step mac EmptyString).

(** [mac[i]] for an index inside the array. *)
Definition mac_at (mac : list Byte.byte) (i : nat) : Byte.byte :=
  nth i mac Byte.x00.

(** The access-point name computed by [startConfigurationPortal]. *)
Definition apName (mac : list Byte.byte) : string :=
  toUpperCase ("AgroFlowSensor-" +:+ String_of_byte (mac_at mac 3) HEX
               +:+ String_of_byte (mac_at mac 4) HEX
               +:+ String_of_byte (mac_at mac 5) HEX).

(** *** Specification side of the identity claims *)

(** One uppercase hexadecimal digit, from the spec's words. *)
Definition upper_hex_digit (n : N) : ascii :=
  match String.get (N.to_nat n) "0123456789ABCDEF" with
  | Some c => c
  | None => "?"%char
  end.

(** A byte rendered as two uppercase hex digits (zero-padded). *)
Definition hex2 (b : Byte.byte) : string :=
  String (upper_hex_digit (Byte.to_N b / 16)) (String (upper_hex_digit (Byte.to_N b mod 16)) EmptyString).

Definition is_upper_hex (c : ascii) : bool :=
  let n := N_of_ascii c in
  (((48 <=? n) && (n <=? 57)) || ((65 <=? n) && (n <=? 70)))%N.

Fixpoint all_chars (p : ascii -> bool) (s : string) : bool :=
  match s with
  | EmptyString => true
  | String c r => p c && all_chars p r
  end.

Fixpoint concat_strings (l : list string) : string :=
  match l with
  | [] => EmptyString
  | s :: r => s +:+ concat_strings r
  end.

(** ** Provisioning portal: [handleScan] *)

(** One entry of a finished scan: [WiFi.SSID(i)] and [WiFi.RSSI(i)]. *)
Record ScannedNetwork := { net_ssid : string; net_rssi : Z }.

Definition dq : string := String dquote EmptyString.

(** The object appended at line 139. *)
Definition scan_entry (net : ScannedNetwork) : string :=
  "{" +:+ dq +:+ "ssid" +:+ dq +:+ ":" +:+ dq +:+ net_ssid net +:+ dq +:+ ","
      +:+ dq +:+ "rssi" +:+ dq +:+ ":" +:+ String_of_int (net_rssi net) +:+ "}".

(** The [for] loop of [handleScan], from index [i] on: [nets] are the entries
    [i], [i+1], ... of the scan and [json] is the text built so far. *)
Fixpoint scan_loop (i : nat) (nets : list ScannedNetwork) (json : string) : string :=
  match nets with
  | [] => json
  | net :: rest =>
      if String.eqb (net_ssid net) EmptyString then scan_loop (S i) rest json
      else
        let json := if (0 <? i)%nat then json +:+ "," else json in
        scan_loop (S i) rest (json +:+ scan_entry net)
  end.

(** The text [handleScan] has built when it calls [server.send], for a scan
    that found [nets]. *)
Definition handleScan_json (nets : list ScannedNetwork) : string :=
  scan_loop 0 nets "[" +:+ "]".

(** *** Specification side of the scan claim *)

Definition named (net : ScannedNetwork) : bool :=
  negb (String.eqb (net_ssid net) EmptyString).

Fixpoint join_comma (l : list string) : string :=
  match l with
  | [] => EmptyString
  | [x] => x
  | x :: r => x +:+ "," +:+ join_comma r
  end.

(** The array the spec describes: one object per named network, in scan
    order, separated by commas. *)
Definition scan_json_spec (nets : list ScannedNetwork) : string :=
  "[" +:+ join_comma (List.map scan_entry (List.filter named nets)) +:+ "]".

(** A recogniser of JSON texts (RFC 8259), used to decide well-formedness of
    what [handleScan] sends.  Each function returns the input left after the
    construct it recognises. *)
Module Json.

Definition is_digit (c : ascii) : bool :=
  let n := N_of_ascii c in ((48 <=? n) && (n <=? 57))%N.

Definition is_hex (c : ascii) : bool :=
  let n := N_of_ascii c in
  (((48 <=? n) && (n <=? 57)) || ((65 <=? n) && (n <=? 70)) || ((97 <=? n) && (n <=? 102)))%N.

Definition is_ws (c : ascii) : bool :=
  let n := N_of_ascii c in
  ((n =? 32) || (n =? 9) || (n =? 10) || (n =? 13))%N.

Definition is_escape (c : ascii) : bool :=
  let n := N_of_ascii c in
  ((n =? 34) || (n =? 92) || (n =? 47) || (n =? 98) || (n =? 102)
   || (n =? 110) || (n =? 114) || (n =? 116))%N.

Fixpoint skip_ws (s : string) : string :=
  match s with
  | String c r => if is_ws c then skip_ws r else s
  | EmptyString => s
  end.

Fixpoint skip_digits (s : string) : string :=
  match s with
  | String c r => if is_digit c then skip_digits r else s
  | EmptyString => s
  end.

Definition digits1 (s : string) : option string :=
  match s with
  | String c r => if is_digit c then Some (skip_digits r) else None
  | EmptyString => None
  end.

Definition number (s : string) : option string :=
  let s := match s with String "-"%char r => r | _ => s end in
  let int := match s with String "0"%char r => Some r | _ => digits1 s end in
  match int with
  | None => None
  | Some r =>
      let frac := match r with String "."%char f => digits1 f | _ => Some r end in
      match frac with
      | None => None
      | Some r =>
          match r with
          | String c e =>
              if ((N_of_ascii c =? 101) || (N_of_ascii c =? 69))%N then
                match e with
                | String "+"%char d | String "-"%char d => digits1 d
                | _ => digits1 e
                end
              else Some r
          | EmptyString => Some r
          end
      end
  end.

(** The characters of a string literal after its opening quote. *)
Fixpoint string_body (s : string) : option string :=
  match s with
  | EmptyString => None
  | String c r =>
      if (N_of_ascii c =? 34)%N then Some r
      else if (N_of_ascii c =? 92)%N then
        match r with
        | String "u"%char (String h1 (String h2 (String h3 (String h4 r')))) =>
            if is_hex h1 && is_hex h2 && is_hex h3 && is_hex h4
            then string_body r' else None
        | String e r' => if is_escape e then string_body r' else None
        | EmptyString => None
        end
      else if (N_of_ascii c <? 32)%N then None
      else string_body r
  end.

Definition literal (lit s : string) : option string :=
  if String.prefix lit s
  then Some (String.substring (String.length lit) (String.length s - String.length lit) s)
  else None.

Fixpoint value (fuel : nat) (s : string) : option string :=
  match fuel with
  | O => None
  | S fuel =>
      match skip_ws s with
      | EmptyString => None
      | String "["%char r =>
          match skip_ws r with
          | String "]"%char r' => Some r'
          | r0 => elements fuel r0
          end
      | String "{"%char r =>
          match skip_ws r with
          | String "}"%char r' => Some r'
          | r0 => members fuel r0
          end
      | String "t"%char _ as s0 => literal "true" s0
      | String "f"%char _ as s0 => literal "false" s0
      | String "n"%char _ as s0 => literal "null" s0
      | String c r as s0 =>
          if (N_of_ascii c =? 34)%N then string_body r else number s0
      end
  end
with elements (fuel : nat) (s : string) : option string :=
  match fuel with
  | O => None
  | S fuel =>
      match value fuel s with
      | None => None
      | Some r =>
          match skip_ws r with
          | String ","%char r' => elements fuel r'
          | String "]"%char r' => Some r'
          | _ => None
          end
      end
  end
with members (fuel : nat) (s : string) : option string :=
  match fuel with
  | O => None
  | S fuel =>
      match skip_ws s with
      | String c k =>
          if (N_of_ascii c =? 34)%N then
            match string_body k with
            | None => None
            | Some r =>
                match skip_ws r with
                | String ":"%char v =>
                    match value fuel v with
                    | None => None
                    | Some r =>
                        match skip_ws r with
                        | String ","%char r' => members fuel r'
                        | String "}"%char r' => Some r'
                        | _ => None
                        end
                    end
                | _ => None
                end
            end
          else None
      | EmptyString => None
      end
  end.

(** A text is well formed when one value, and nothing but white space after
    it, is recognised.  Every call consumes a character within two steps, so
    the fuel below is enough for any text. *)
Definition well_formed (s : string) : bool :=
  match value (2 * String.length s + 2) s with
  | Some r => String.eqb (skip_ws r) EmptyString
  | None => false
  end.

End Json.

(** ** The device: persistent store, volatile globals, observable events *)

(** Global configuration of the sketch. *)
Definition MQTT_PUB_TOPIC : string := "sensors/humidity".
Definition RESET_PIN_1 : Z := 22.
Definition SENSOR_PIN : Z := 34.
Definition DRY_VALUE : Z := 2850.
Definition WET_VALUE : Z := 1350.

Definition nl : string := String "010"%char EmptyString.

(** The JSON document assembled by [publishSensorData], kept as a record:
    its text is produced by the ArduinoJson library. *)
Record SensorReading := {
  reading_id : string;
  reading_humidity : Z;
  reading_timestamp : Z
}.

Inductive http_body :=
| IndexHtml
| Body (text : string).

(** What the sketch does to the outside world, in program order. *)
Inductive event :=
| SerialPrint (s : string)
| SerialPrintln (s : string)
| SerialPrintlnDoc (doc : SensorReading)
| Delay (ms : Z)
| DigitalRead (pin : Z)
| AnalogRead (pin : Z)
| WiFiMacAddress
| WiFiBegin (ssid password : string)
| WiFiStatus
| WiFiSoftAP (name : string)
| WiFiScanNetworks
| DnsStart
| ServerBegin
| HttpSend (code : Z) (content_type : string) (body : http_body)
| PrefsBegin (name : string)
| PrefsClear
| PrefsPutString (key value : string)
| ConfigTime
| GetLocalTime
| MqttConnect (client_id : string)
| MqttSubscribe (topic : string)
| MqttLoop
| MqttPublish (topic : string) (doc : SensorReading)
| EspRestart.

(** The [Preferences] object: the namespace's keys in flash ([nvs], which
    survives a restart) and the handle's [started] flag (which does not).
    As in the ESP32 core, every operation on a handle that is not started
    does nothing and reads return the default. *)
Record Preferences := {
  started : bool;
  nvs : gmap string string
}.

(** The mutable globals of the sketch. *)
Record Device := {
  preferences : Preferences;
  uniqueId : string;
  commandTopic : string;
  lastMsg : Z
}.

(** The globals as initialised when the chip starts, over the flash
    contents [flash]. *)
Definition power_on (flash : gmap string string) : Device :=
  {| preferences := {| started := false; nvs := flash |};
     uniqueId := EmptyString;
     commandTopic := EmptyString;
     lastMsg := 0 |}.

(** How a piece of the sketch ends. *)
Inductive result (A : Type) :=
| Returned (a : A) (d : Device)          (* control came back to the caller *)
| Restarted (flash : gmap string string) (* [ESP.restart()]: only flash survives *)
| Serving (d : Device)                   (* inside the portal's [while (true)] *)
| OutOfFuel.                             (* a loop of the model was cut short *)

Arguments Returned {A} a d.
Arguments Restarted {A} flash.
Arguments Serving {A} d.
Arguments OutOfFuel {A}.

(** Computations of the sketch: the globals go in, the events performed and
    the way the computation ended come out. *)
Definition M (A : Type) : Type := Device -> list event * result A.

Definition ret {A} (a : A) : M A := fun d => ([], Returned a d).

Definition bind {A B} (m : M A) (k : A -> M B) : M B :=
  fun d =>
    match m d with
    | (t, Returned a d') => let (t', r) := k a d' in ((t ++ t')%list, r)
    | (t, Restarted flash) => (t, Restarted flash)
    | (t, Serving d') => (t, Serving d')
    | (t, OutOfFuel) => (t, OutOfFuel)
    end.

Declare Scope fw_scope.
Delimit Scope fw_scope with fw.
Notation "x <- m ;; k" := (bind m (fun x => k))
  (at level 100, m at next level, right associativity) : fw_scope.
Notation "m ;; k" := (bind m (fun _ => k))
  (at level 100, right associativity) : fw_scope.
Local Open Scope fw_scope.

Definition emit (e : event) : M unit := fun d => ([e], Returned tt d).
Definition get : M Device := fun d => ([], Returned d d).
Definition put (d : Device) : M unit := fun _ => ([], Returned tt d).
Definition out_of_fuel {A} : M A := fun _ => ([], OutOfFuel).

Definition print (s : string) : M unit := emit (SerialPrint s).
Definition println (s : string) : M unit := emit (SerialPrintln s).
Definition delay (ms : Z) : M unit := emit (Delay ms).

(** [ESP.restart()] does not return. *)
Definition ESP_restart {A} : M A :=
  fun d => ([EspRestart], Restarted (nvs (preferences d))).

(** *** [Preferences] methods *)

Definition with_preferences (p : Preferences) (d : Device) : Device :=
  {| preferences := p; uniqueId := uniqueId d;
     commandTopic := commandTopic d; lastMsg := lastMsg d |}.

(** [preferences.begin(name, false)]; [opened] is whether the flash
    namespace could be opened.  The sketch drops the returned flag. *)
Definition prefs_begin (name : string) (opened : bool) : M bool :=
  fun d =>
    let p := preferences d in
    if started p then ([PrefsBegin name], Returned false d)
    else ([PrefsBegin name],
          Returned opened (with_preferences {| started := opened; nvs := nvs p |} d)).

Definition prefs_getString (key default : string) : M string :=
  fun d =>
    let p := preferences d in
    ([], Returned (if started p then
                     match nvs p !! key with Some v => v | None => default end
                   else default) d).

Definition prefs_putString (key value : string) : M unit :=
  fun d =>
    let p := preferences d in
    ([PrefsPutString key value],
     Returned tt (if started p
                  then with_preferences {| started := true; nvs := <[key:=value]> (nvs p) |} d
                  else d)).

Definition prefs_clear : M unit :=
  fun d =>
    let p := preferences d in
    ([PrefsClear],
     Returned tt (if started p
                  then with_preferences {| started := true; nvs := ∅ |} d
                  else d)).

(** ** Helper functions of the sketch *)

Definition clearConfigAndRestart {A} : M A :=
  println "Limpando todas as configuracoes e reiniciando..." ;;
  prefs_clear ;;
  delay 1000 ;;
  ESP_restart.

(** [clock] is [None] when [getLocalTime] fails and the value stored by
    [time(&now)] otherwise.  The result is an [unsigned long long]. *)
Definition getUnixTimestampMillis (clock : option Z) : M Z :=
  emit GetLocalTime ;;
  match clock with
  | None => println "Falha ao obter o tempo" ;; ret 0
  | Some now => ret (((now mod 2 ^ 64) * 1000) mod 2 ^ 64)
  end.

(** ** Provisioning portal *)

Definition handleRoot : M unit := emit (HttpSend 200 "text/html" IndexHtml).

Definition handleScan (nets : list ScannedNetwork) : M unit :=
  emit WiFiScanNetworks ;;
  emit (HttpSend 200 "application/json" (Body (handleScan_json nets))).

Definition responsePage : string :=
  "<html><body style='font-family: sans-serif; text-align: center; margin-top: 50px;'>"
  +:+ "<h2>Configuracoes salvas!</h2>"
  +:+ "<p>O dispositivo sera reiniciado em 3 segundos para se conectar a sua rede.</p>"
  +:+ "</body></html>".

(** [ssid] and [password] are [server.arg("ssid")] and
    [server.arg("password")]: the empty string when the field is missing. *)
Definition handleSave (ssid password : string) : M unit :=
  prefs_putString "ssid" ssid ;;
  prefs_putString "password" password ;;
  emit (HttpSend 200 "text/html" (Body responsePage)) ;;
  delay 3000 ;;
  ESP_restart.

(** [startConfigurationPortal] up to its service loop, in which it stays. *)
Definition startConfigurationPortal (mac : list Byte.byte) (ip : string) : M unit :=
  emit WiFiMacAddress ;;
  let name := apName mac in
  emit (WiFiSoftAP name) ;;
  println (nl +:+ "--- MODO DE CONFIGURACAO VIA PORTAL WEB ---") ;;
  print "Conecte-se a rede: " ;;
  println name ;;
  print "Acesse o IP: http://" ;;
  println ip ;;
  emit DnsStart ;;
  emit ServerBegin ;;
  println "Servidor web iniciado. Aguardando configuracao..." ;;
  (fun d => ([], Serving d)).

(** A request dispatched by [server.handleClient()] inside the service
    loop. *)
Inductive request :=
| GetRoot
| GetScan (nets : list ScannedNetwork)
| PostSave (ssid password : string)
| NotFound.

Definition handleClient (r : request) : M unit :=
  match r with
  | GetRoot | NotFound => handleRoot
  | GetScan nets => handleScan nets
  | PostSave ssid password => handleSave ssid password
  end.

(** ** Sensor *)

(** Lines 193 and 196: the mapped and constrained percentage. *)
Definition humidityPercent (rawValue : Z) : Z :=
  constrain (Arduino.map rawValue DRY_VALUE WET_VALUE 0 100) 0 100.

(** [rawValue] is what [analogRead(SENSOR_PIN)] returns. *)
Definition readSensorData (rawValue : Z) : M Z :=
  emit (AnalogRead SENSOR_PIN) ;;
  print "Valor bruto do sensor: " ;;
  println (String_of_int rawValue) ;;
  ret (humidityPercent rawValue).

(** ** Operation: broker and telemetry *)

(** [(char* )payload] read as a C string: the bytes before the first NUL. *)
Fixpoint c_str (payload : string) : string :=
  match payload with
  | EmptyString => EmptyString
  | String c r => if (N_of_ascii c =? 0)%N then EmptyString else String c (c_str r)
  end.

(** [payload] holds the [length] bytes of the message. *)
Definition mqttCallback (topic payload : string) : M unit :=
  print "Mensagem recebida no topico: " ;;
  println topic ;;
  if (0 <? String.length payload)%nat then
    let message := c_str payload in
    print "Payload recebido: '" ;;
    print message ;;
    println "'" ;;
    let message := trim message in
    if equalsIgnoreCase message "RESET" then
      println "Comando de reset valido! Reiniciando..." ;;
      clearConfigAndRestart
    else println "Comando invalido."
  else println "Payload vazio.".

(** The [while (!mqtt.connected())] loop.  [connected] is the answer of
    [mqtt.connected()] at the loop test, [broker k] tells whether the [k]-th
    call of [mqtt.connect] in this invocation succeeds and [rc k] is
    [mqtt.state()] after it; a successful connect makes the next test
    true.  Each unit of [fuel] pays for one loop test. *)
Fixpoint reconnectMQTT (fuel : nat) (connected : bool)
    (broker : nat -> bool) (rc : nat -> Z) (k : nat) : M unit :=
  match fuel with
  | O => out_of_fuel
  | S fuel =>
      if connected then ret tt
      else
        print "Conectando ao MQTT Broker..." ;;
        d <- get ;;
        emit (MqttConnect (uniqueId d)) ;;
        if broker k then
          println "conectado." ;;
          emit (MqttSubscribe (commandTopic d)) ;;
          print "Inscrito no topico de comando: " ;;
          println (commandTopic d) ;;
          reconnectMQTT fuel true broker rc (S k)
        else
          print "falhou, rc=" ;;
          print (String_of_int (rc k)) ;;
          println " tentando novamente em 5 segundos" ;;
          delay 5000 ;;
          reconnectMQTT fuel false broker rc (S k)
  end.

(** [rawValue] and [clock] are what the sensor and the clock answer during
    this cycle. *)
Definition publishSensorData (rawValue : Z) (clock : option Z) : M unit :=
  humidity <- readSensorData rawValue ;;
  timestamp <- getUnixTimestampMillis clock ;;
  if timestamp =? 0 then
    println "Aguardando sincronizacao de tempo..."
  else
    d <- get ;;
    let doc := {| reading_id := uniqueId d;
                  reading_humidity := humidity;
                  reading_timestamp := timestamp |} in
    emit (MqttPublish MQTT_PUB_TOPIC doc) ;;
    print "Mensagem publicada: " ;;
    emit (SerialPrintlnDoc doc).

(** ** [setup] and [loop] *)

(** What the hardware answers during one boot. *)
Record BootEnv := {
  boot_mac : list Byte.byte;          (* [WiFi.macAddress] *)
  boot_reset_low : bool;              (* [digitalRead(RESET_PIN_1) == LOW] *)
  boot_store_opens : bool;            (* whether the flash namespace opens *)
  boot_wifi : nat -> bool;            (* the [k]-th [WiFi.status()] is [WL_CONNECTED] *)
  boot_localIP : string;
  boot_softAPIP : string
}.

(** The [while (WiFi.status() != WL_CONNECTED)] loop of [setup]; [polls] is
    the number of status polls made so far.  Each unit of [fuel] pays for
    one loop test. *)
Fixpoint connect_loop (fuel : nat) (wifi : nat -> bool) (polls : nat) (retries : Z) : M unit :=
  match fuel with
  | O => out_of_fuel
  | S fuel =>
      emit WiFiStatus ;;
      if wifi polls then ret tt
      else
        delay 500 ;;
        print "." ;;
        let retries := retries + 1 in
        (if retries >? 40 then
           println (nl +:+ "Falha ao conectar. Credenciais podem estar erradas.") ;;
           clearConfigAndRestart
         else ret tt) ;;
        connect_loop fuel wifi (S polls) retries
  end.

(** The loop leaves by itself after at most 41 tests, so [setup] gives it
    that many. *)
Definition connect_fuel : nat := 41.

(** [snprintf(commandTopic, 100, "sensors/%s/command", id)]. *)
Definition format_commandTopic (id : string) : string :=
  String.substring 0 99 ("sensors/" +:+ id +:+ "/command").

(** [setup].  The calls that only configure a peripheral
    ([Serial.begin], [pinMode], [digitalWrite], [WiFi.mode],
    [mqtt.setServer], [mqtt.setCallback]) leave no event; everything else
    is in program order.  The global [uniqueId] is appended to, as in the
    source, and is empty when the chip starts. *)
Definition setup (env : BootEnv) : M unit :=
  delay 1000 ;;
  println (nl +:+ nl +:+ "Iniciando dispositivo...") ;;
  emit WiFiMacAddress ;;
  d <- get ;;
  let id := toUpperCase (fold_left uniqueId_step (boot_mac env) (uniqueId d)) in
  put {| preferences := preferences d; uniqueId := id;
         commandTopic := commandTopic d; lastMsg := lastMsg d |} ;;
  print "ID unico deste dispositivo: " ;;
  println id ;;
  emit (DigitalRead RESET_PIN_1) ;;
  (if boot_reset_low env then
     println "Reset fisico detectado na inicializacao!" ;;
     clearConfigAndRestart
   else ret tt) ;;
  prefs_begin "sensor-config" (boot_store_opens env) ;;
  ssid <- prefs_getString "ssid" EmptyString ;;
  if String.eqb ssid EmptyString then
    startConfigurationPortal (boot_mac env) (boot_softAPIP env)
  else
    println "Configuracao encontrada. Tentando conectar a rede..." ;;
    password <- prefs_getString "password" EmptyString ;;
    emit (WiFiBegin ssid password) ;;
    d <- get ;;
    put {| preferences := preferences d; uniqueId := uniqueId d;
           commandTopic := format_commandTopic (uniqueId d); lastMsg := lastMsg d |} ;;
    connect_loop connect_fuel (boot_wifi env) 0 0 ;;
    print (nl +:+ "WiFi conectado! IP: ") ;;
    println (boot_localIP env) ;;
    println "Sincronizando relogio com servidor NTP..." ;;
    emit ConfigTime.

(** What the hardware answers during one pass of [loop]. *)
Record LoopEnv := {
  pin_low : bool;                     (* [digitalRead(RESET_PIN_1) == LOW] *)
  wifi_connected : bool;              (* [WiFi.status() == WL_CONNECTED] *)
  mqtt_connected : bool;              (* [mqtt.connected()] on entry *)
  broker : nat -> bool;               (* success of the [k]-th [mqtt.connect] *)
  broker_rc : nat -> Z;               (* [mqtt.state()] after the [k]-th connect *)
  incoming : option string;           (* message handed over by [mqtt.loop()] *)
  millis : Z;
  analog : Z;                         (* [analogRead(SENSOR_PIN)] *)
  clock : option Z                    (* see [getUnixTimestampMillis] *)
}.

Definition mqtt_loop (incoming : option string) : M unit :=
  emit MqttLoop ;;
  match incoming with
  | Some payload => d <- get ;; mqttCallback (commandTopic d) payload
  | None => ret tt
  end.

(** One pass of [loop]; [fuel] bounds the tests of the reconnect loop.
    [millis()] is an [unsigned long] stored in a [long], and the age of the
    last message is a 32-bit difference. *)
Definition loop (fuel : nat) (env : LoopEnv) : M unit :=
  emit (DigitalRead RESET_PIN_1) ;;
  (if pin_low env then
     println "Reset fisico detectado durante a operacao!" ;;
     clearConfigAndRestart
   else ret tt) ;;
  emit WiFiStatus ;;
  (if negb (wifi_connected env) then
     println "Conexao WiFi perdida. Reiniciando para tentar reconectar..." ;;
     delay 1000 ;;
     ESP_restart
   else ret tt) ;;
  (if negb (mqtt_connected env) then
     reconnectMQTT fuel (mqtt_connected env) (broker env) (broker_rc env) 0
   else ret tt) ;;
  mqtt_loop (incoming env) ;;
  let now := wrap32 (millis env) in
  d <- get ;;
  if wrap32 (now - lastMsg d) >? 5000 then
    put {| preferences := preferences d; uniqueId := uniqueId d;
           commandTopic := commandTopic d; lastMsg := now |} ;;
    publishSensorData (analog env) (clock env)
  else ret tt.

(** ** Reading traces and outcomes *)

(** The lifecycle state a boot leaves the device in. *)
Inductive LifecycleState :=
| PortalActive
| Operating
| Unprovisioned_restart   (* restarted with the store cleared or unchanged *)
| Undetermined.

Definition lifecycle_of {A} (r : result A) : LifecycleState :=
  match r with
  | Returned _ _ => Operating
  | Serving _ => PortalActive
  | Restarted _ => Unprovisioned_restart
  | OutOfFuel => Undetermined
  end.

(** The globals a computation leaves behind, when the program goes on. *)
Definition device_of {A} (r : result A) : option Device :=
  match r with
  | Returned _ d | Serving d => Some d
  | Restarted _ | OutOfFuel => None
  end.

(** Running a whole boot from the flash contents. *)
Definition boot (env : BootEnv) (flash : gmap string string) : list event * result unit :=
  setup env (power_on flash).

Definition is_status_poll (e : event) : bool :=
  match e with WiFiStatus => true | _ => false end.

Definition is_pin_read (e : event) : bool :=
  match e with DigitalRead _ => true | _ => false end.

Definition is_join (e : event) : bool :=
  match e with WiFiBegin _ _ => true | _ => false end.

Definition is_clear (e : event) : bool :=
  match e with PrefsClear => true | _ => false end.

Definition is_sample (e : event) : bool :=
  match e with AnalogRead _ => true | _ => false end.

Definition is_publish (e : event) : bool :=
  match e with MqttPublish _ _ => true | _ => false end.

Definition is_delay_of (ms : Z) (e : event) : bool :=
  match e with Delay n => n =? ms | _ => false end.

Definition count (p : event -> bool) (t : list event) : nat :=
  List.length (List.filter p t).

(** The time spent in [delay] calls, in milliseconds. *)
Fixpoint total_delay (t : list event) : Z :=
  match t with
  | [] => 0
  | Delay ms :: r => ms + total_delay r
  | _ :: r => total_delay r
  end.

(** Every published document of a trace satisfies [p]. *)
Fixpoint published (p : SensorReading -> Prop) (t : list event) : Prop :=
  match t with
  | [] => True
  | MqttPublish _ doc :: r => p doc /\ published p r
  | _ :: r => published p r
  end.

(** One unsuccessful round of the connect loop, and the events of the
    escalation that ends it. *)
Definition poll_round : list event :=
  [WiFiStatus; Delay 500; SerialPrint "."].

Definition escalation : list event :=
  [SerialPrintln (nl +:+ "Falha ao conectar. Credenciais podem estar erradas.");
   SerialPrintln "Limpando todas as configuracoes e reiniciando...";
   PrefsClear; Delay 1000; EspRestart].

(** The events of [setup] before it looks at the stored configuration. *)
Definition boot_preamble (env : BootEnv) : list event :=
  [Delay 1000;
   SerialPrintln (nl +:+ nl +:+ "Iniciando dispositivo...");
   WiFiMacAddress;
   SerialPrint "ID unico deste dispositivo: ";
   SerialPrintln (derive_identity (boot_mac env));
   DigitalRead RESET_PIN_1;
   PrefsBegin "sensor-config"].

(** The events of [startConfigurationPortal]. *)
Definition portal_events (env : BootEnv) : list event :=
  [WiFiMacAddress;
   WiFiSoftAP (apName (boot_mac env));
   SerialPrintln (nl +:+ "--- MODO DE CONFIGURACAO VIA PORTAL WEB ---");
   SerialPrint "Conecte-se a rede: ";
   SerialPrintln (apName (boot_mac env));
   SerialPrint "Acesse o IP: http://";
   SerialPrintln (boot_softAPIP env);
   DnsStart; ServerBegin;
   SerialPrintln "Servidor web iniciado. Aguardando configuracao..."].

(** The globals once [setup] has computed the identity and called
    [preferences.begin]. *)
Definition booted (env : BootEnv) (flash : gmap string string) : Device :=
  {| preferences := {| started := boot_store_opens env; nvs := flash |};
     uniqueId := derive_identity (boot_mac env);
     commandTopic := EmptyString;
     lastMsg := 0 |}.

(** The globals when [setup] enters the connect loop. *)
Definition joining (env : BootEnv) (flash : gmap string string) : Device :=
  {| preferences := {| started := boot_store_opens env; nvs := flash |};
     uniqueId := derive_identity (boot_mac env);
     commandTopic := format_commandTopic (derive_identity (boot_mac env));
     lastMsg := 0 |}.

(** The same boot conditions with another answer of the flash store. *)
Definition with_store_opens (opens : bool) (env : BootEnv) : BootEnv :=
  {| boot_mac := boot_mac env;
     boot_reset_low := boot_reset_low env;
     boot_store_opens := opens;
     boot_wifi := boot_wifi env;
     boot_localIP := boot_localIP env;
     boot_softAPIP := boot_softAPIP env |}.

(** The configuration [setup] reads: the stored name, or the default. *)
Definition stored_ssid (env : BootEnv) (flash : gmap string string) : string :=
  if boot_store_opens env then
    match flash !! "ssid" with Some v => v | None => EmptyString end
  else EmptyString.

Definition stored_password (env : BootEnv) (flash : gmap string string) : string :=
  if boot_store_opens env then
    match flash !! "password" with Some v => v | None => EmptyString end
  else EmptyString.

(** What [setup] does after [WiFi.begin]: the connect loop and, when it is
    left, the start of the clock synchronisation. *)
Definition join_phase (env : BootEnv) : M unit :=
  connect_loop connect_fuel (boot_wifi env) 0 0 ;;
  print (nl +:+ "WiFi conectado! IP: ") ;;
  println (boot_localIP env) ;;
  println "Sincronizando relogio com servidor NTP..." ;;
  emit ConfigTime.

Definition join_events (env : BootEnv) (flash : gmap string string) : list event :=
  [SerialPrintln "Configuracao encontrada. Tentando conectar a rede...";
   WiFiBegin (stored_ssid env flash) (stored_password env flash)].

(** The end of a pass of [loop], from [mqtt.loop()] on. *)
Definition pass_tail (env : LoopEnv) : M unit :=
  mqtt_loop (incoming env) ;;
  let now := wrap32 (millis env) in
  d <- get ;;
  if wrap32 (now - lastMsg d) >? 5000 then
    put {| preferences := preferences d; uniqueId := uniqueId d;
           commandTopic := commandTopic d; lastMsg := now |} ;;
    publishSensorData (analog env) (clock env)
  else ret tt.



(** ** Sample inputs *)

Definition sample_mac : list Byte.byte :=
  [Byte.x24; Byte.x6f; Byte.x28; Byte.x0a; Byte.x0b; Byte.x0c].

(** Credentials as the portal stores them. *)
Definition home_flash : gmap string string :=
  <["password" := "secret"]> (<["ssid" := "Home"]> ∅).

(** A boot with the reset pin released, a working store and an access
    point that answers the [k]-th status poll as [wifi k]. *)
Definition sample_boot (opens : bool) (wifi : nat -> bool) : BootEnv :=
  {| boot_mac := sample_mac;
     boot_reset_low := false;
     boot_store_opens := opens;
     boot_wifi := wifi;
     boot_localIP := "192.168.0.7";
     boot_softAPIP := "192.168.4.1" |}.

Definition never : nat -> bool := fun _ => false.
Definition at_once : nat -> bool := fun _ => true.

(** A pass of [loop] with the reset pin released and no message pending. *)
Definition sample_pass (wifi mqtt : bool) (broker : nat -> bool) (clock : option Z) : LoopEnv :=
  {| pin_low := false;
     wifi_connected := wifi;
     mqtt_connected := mqtt;
     broker := broker;
     broker_rc := fun _ => -2;
     incoming := None;
     millis := 6000;
     analog := 2100;
     clock := clock |}.

(** ** Further readings of traces and inputs *)

Definition is_put (e : event) : bool :=
  match e with PrefsPutString _ _ => true | _ => false end.

Definition is_restart (e : event) : bool :=
  match e with EspRestart => true | _ => false end.

Definition is_connect (e : event) : bool :=
  match e with MqttConnect _ => true | _ => false end.

Definition is_subscribe (e : event) : bool :=
  match e with MqttSubscribe _ => true | _ => false end.

(** A string that starts with a character that is not white space. *)
Definition starts_solid (s : string) : bool :=
  match s with
  | String c _ => negb (isspace c)
  | EmptyString => false
  end.

(** The payloads the command handler takes for a reset request: the
    letters of RESET in any case, with white space around them. *)
Definition reset_request (message : string) : Prop :=
  exists before word after,
    all_chars isspace before = true
    /\ all_chars isspace after = true
    /\ toLowerCase word = "reset"
    /\ message = before +:+ word +:+ after.

(** The globals with the time of the last telemetry cycle replaced. *)
Definition with_lastMsg (now : Z) (d : Device) : Device :=
  {| preferences := preferences d; uniqueId := uniqueId d;
     commandTopic := commandTopic d; lastMsg := now |}.

(** A pass in which nothing but the telemetry timer can act: pin released,
    network up, broker connected, no message pending. *)
Definition quiet_pass (env : LoopEnv) : Prop :=
  pin_low env = false /\ wifi_connected env = true
  /\ mqtt_connected env = true /\ incoming env = None.

(** The percentage between the calibration points, from the constants of
    the sketch: 100 points over the 1500 raw steps from dry to wet. *)
Definition humidity_formula (raw : Z) : Z :=
  if 2850 <=? raw then 0
  else if raw <=? 1350 then 100
  else ((2850 - raw) * 100) / 1500.

(** ** Reading an identity back *)

(** The value of a hexadecimal digit, upper or lower case. *)
Definition hex_value (c : ascii) : option N :=
  let n := N_of_ascii c in
  if ((48 <=? n) && (n <=? 57))%N then Some (n - 48)%N
  else if ((65 <=? n) && (n <=? 70))%N then Some (n - 55)%N
  else if ((97 <=? n) && (n <=? 102))%N then Some (n - 87)%N
  else None.

(** Pairs of hexadecimal digits read as bytes; [None] for an odd number of
    characters or a character that is not a digit. *)
Fixpoint decode_hex (s : string) : option (list Byte.byte) :=
  match s with
  | EmptyString => Some []
  | String _ EmptyString => None
  | String h (String l r) =>
      match hex_value h, hex_value l, decode_hex r with
      | Some a, Some b, Some rest =>
          match Byte.of_N (16 * a + b) with
          | Some x => Some (x :: rest)
          | None => None
          end
      | _, _, _ => None
      end
  end.

(** The scans whose rendering by [handleScan] is the spec's array: the
    first entry is named, or no entry is. *)
Definition scan_renders_as_spec (nets : list ScannedNetwork) : Prop :=
  match nets with
  | [] => True
  | net :: rest => named net = true \/ List.filter named rest = []
  end.

(** Characters that stand for themselves inside a JSON string: no control
    character, no double quote, no backslash. *)
Definition plain_char (c : ascii) : bool :=
  let n := N_of_ascii c in
  ((32 <=? n) && negb (n =? 34) && negb (n =? 92))%N.

Definition plain_name (net : ScannedNetwork) : bool :=
  all_chars plain_char (net_ssid net).

(** * Properties *)

Section StringFacts.

(** stdpp keeps [String.append] folded under [simpl]; its two defining
    equations are used as rewrite rules instead. *)
Lemma append_nil_l (s : string) : EmptyString +:+ s = s.
Proof. reflexivity. Qed.

Lemma append_cons_l (c : ascii) (a b : string) :
  String c a +:+ b = String c (a +:+ b).
Proof. reflexivity. Qed.

Lemma append_empty_r (s : string) : s +:+ EmptyString = s.
Proof.
  induction s as [|c s IH]; [reflexivity |].
  now rewrite append_cons_l, IH.
Qed.

Lemma append_assoc (a b c : string) : (a +:+ b) +:+ c = a +:+ (b +:+ c).
Proof.
  induction a as [|x a IH]; [reflexivity |].
  now rewrite !append_cons_l, IH.
Qed.

Lemma toUpperCase_app (a b : string) :
  toUpperCase (a +:+ b) = toUpperCase a +:+ toUpperCase b.
Proof.
  induction a as [|x a IH]; [reflexivity |].
  rewrite append_cons_l. cbn [toUpperCase]. now rewrite IH, append_cons_l.
Qed.

Lemma length_append (a b : string) :
  String.length (a +:+ b) = (String.length a + String.length b)%nat.
Proof.
  induction a as [|x a IH]; [reflexivity |].
  rewrite append_cons_l. cbn [String.length]. rewrite IH. reflexivity.
Qed.

Lemma all_chars_app p (a b : string) :
  all_chars p (a +:+ b) = all_chars p a && all_chars p b.
Proof.
  induction a as [|x a IH]; [reflexivity |].
  rewrite append_cons_l. cbn [all_chars]. now rewrite IH, andb_assoc.
Qed.

(** The fuel given to the digit loop of [utoa] is enough: more of it does
    not change the digits. *)
Lemma utoa_loop_enough (fuel extra : nat) (value base : N) (acc : string) :
  (2 <= base)%N ->
  (value < 2 ^ N.of_nat (S fuel))%N ->
  utoa_loop (fuel + extra) value base acc = utoa_loop fuel value base acc.
Proof.
  intros Hbase. revert value acc.
  induction fuel as [|fuel IH]; intros value acc Hvalue.
  - change (2 ^ N.of_nat 1)%N with 2%N in Hvalue.
    destruct extra as [|extra]; [reflexivity |].
    cbn [Nat.add utoa_loop]. rewrite N.div_small by lia. reflexivity.
  - cbn [Nat.add utoa_loop].
    destruct (value / base =? 0)%N; [reflexivity |].
    apply IH. apply N.Div0.div_lt_upper_bound.
    rewrite Nat2N.inj_succ, N.pow_succ_r' in Hvalue. nia.
Qed.

Lemma utoa_fuel_enough (extra : nat) (value base : N) :
  (2 <= base <= 36)%N ->
  utoa_loop (N.to_nat (N.log2 value) + extra) value base EmptyString = utoa value base.
Proof.
  intros Hbase. unfold utoa.
  destruct (N.ltb_spec base 2); [lia |].
  destruct (N.ltb_spec 36 base); [lia |]. cbn [orb].
  apply utoa_loop_enough; [lia |].
  rewrite Nat2N.inj_succ, N2Nat.id.
  destruct value as [|p]; [reflexivity |].
  apply N.log2_spec. lia.
Qed.

End StringFacts.

Section Identity.

(** What one loop iteration appends, after the final upper-casing. *)
Lemma uniqueId_piece (b : Byte.byte) :
  toUpperCase (uniqueId_step EmptyString b) = hex2 b.
Proof. destruct b; vm_compute; reflexivity. Qed.

Lemma uniqueId_step_acc (acc : string) (b : Byte.byte) :
  uniqueId_step acc b = acc +:+ uniqueId_step EmptyString b.
Proof.
  unfold uniqueId_step. destruct (Byte.to_N b <? 16)%N.
  - now rewrite append_nil_l, append_assoc.
  - now rewrite append_nil_l.
Qed.

Lemma uniqueId_fold (mac : list Byte.byte) (acc : string) :
  toUpperCase (fold_left uniqueId_step mac acc)
  = toUpperCase acc +:+ concat_strings (List.map hex2 mac).
Proof.
  revert acc. induction mac as [|b mac IH]; intros acc; simpl.
  - now rewrite append_empty_r.
  - rewrite IH, uniqueId_step_acc, toUpperCase_app, uniqueId_piece.
    now rewrite append_assoc.
Qed.

Lemma derive_identity_hex2 (mac : list Byte.byte) :
  derive_identity mac = concat_strings (List.map hex2 mac).
Proof. unfold derive_identity. now rewrite uniqueId_fold. Qed.

Lemma hex2_length (b : Byte.byte) : String.length (hex2 b) = 2%nat.
Proof. reflexivity. Qed.

Lemma hex2_upper (b : Byte.byte) : all_chars is_upper_hex (hex2 b) = true.
Proof. destruct b; vm_compute; reflexivity. Qed.

Lemma concat_hex2_length (mac : list Byte.byte) :
  String.length (concat_strings (List.map hex2 mac)) = (2 * List.length mac)%nat.
Proof.
  induction mac as [|b mac IH]; [reflexivity |].
  cbn [List.map concat_strings List.length]. rewrite length_append, IH, hex2_length. lia.
Qed.

Lemma concat_hex2_upper (mac : list Byte.byte) :
  all_chars is_upper_hex (concat_strings (List.map hex2 mac)) = true.
Proof.
  induction mac as [|b mac IH]; [reflexivity |].
  cbn [List.map concat_strings]. now rewrite all_chars_app, hex2_upper, IH.
Qed.

End Identity.

Section Monad.

Context {A B : Type}.

(** How a sequence ends, and what it has done, in terms of its parts. *)
Lemma result_bind (m : M A) (k : A -> M B) (d : Device) :
  snd (bind m k d)
  = match snd (m d) with
    | Returned a d' => snd (k a d')
    | Restarted flash => Restarted flash
    | Serving d' => Serving d'
    | OutOfFuel => OutOfFuel
    end.
Proof.
  unfold bind. destruct (m d) as [t [a d'|flash|d'|]]; cbn [snd]; try reflexivity.
  destruct (k a d'); reflexivity.
Qed.

Lemma trace_bind (m : M A) (k : A -> M B) (d : Device) :
  fst (bind m k d)
  = match snd (m d) with
    | Returned a d' => (fst (m d) ++ fst (k a d'))%list
    | _ => fst (m d)
    end.
Proof.
  unfold bind. destruct (m d) as [t [a d'|flash|d'|]]; cbn [fst snd]; try reflexivity.
  destruct (k a d'); reflexivity.
Qed.

End Monad.

(** Symbolic execution of a sequence: split it at its first statement and
    evaluate the primitives. *)
Ltac prim :=
  cbn [ret emit get put print println delay out_of_fuel ESP_restart
       prefs_begin prefs_getString prefs_putString prefs_clear with_preferences
       preferences uniqueId commandTopic lastMsg started nvs
       fst snd app].

Ltac run := prim; repeat (first [rewrite result_bind | rewrite trace_bind]; prim).

Section Boot.

Lemma clearConfigAndRestart_result {A} (d : Device) :
  snd (@clearConfigAndRestart A d)
  = Restarted (if started (preferences d) then ∅ else nvs (preferences d)).
Proof.
  unfold clearConfigAndRestart. run.
  destruct (started (preferences d)); reflexivity.
Qed.

(** The connect loop never serves and never changes the globals when it
    returns. *)
Lemma connect_loop_device fuel wifi polls retries d :
  match snd (connect_loop fuel wifi polls retries d) with
  | Returned _ d' => d' = d
  | Serving _ => False
  | _ => True
  end.
Proof.
  revert polls retries d.
  induction fuel as [|fuel IH]; intros polls retries d; [exact I |].
  cbn [connect_loop]. run.
  destruct (wifi polls); prim; [reflexivity |].
  run.
  destruct (retries + 1 >? 40); run.
  - rewrite clearConfigAndRestart_result. exact I.
  - apply IH.
Qed.

(** Whatever the hardware answers, a boot that goes on (into the portal or
    into operation) has computed the identity from the address. *)
Lemma boot_identity env flash d :
  device_of (snd (boot env flash)) = Some d ->
  uniqueId d = derive_identity (boot_mac env).
Proof.
  unfold boot, setup, power_on, derive_identity. run.
  destruct (boot_reset_low env); run.
  { rewrite clearConfigAndRestart_result. discriminate. }
  prim. run.
  set (ssid := if boot_store_opens env then _ else _).
  destruct (String.eqb ssid EmptyString).
  - unfold startConfigurationPortal. run. intros [= <-]. reflexivity.
  - run.
    match goal with
    | |- context [connect_loop ?f ?w ?p ?r ?d0] =>
        pose proof (connect_loop_device f w p r d0) as Hc;
        destruct (snd (connect_loop f w p r d0))
    end; try discriminate; try contradiction.
    subst. run. intros [= <-]. reflexivity.
Qed.

End Boot.

(** C8: for every 6-byte hardware address, [derive_identity] is the
    concatenation of the bytes' two-digit uppercase hexadecimal renderings,
    hence exactly 12 uppercase hex characters; it depends on the address
    alone, and every boot that keeps running holds exactly this string in
    the global [uniqueId]. *)
Theorem C8_derive_identity (mac : list Byte.byte) :
  List.length mac = 6%nat ->
  derive_identity mac = concat_strings (List.map hex2 mac)
  /\ String.length (derive_identity mac) = 12%nat
  /\ all_chars is_upper_hex (derive_identity mac) = true
  /\ (forall env flash d,
        boot_mac env = mac ->
        device_of (snd (boot env flash)) = Some d ->
        uniqueId d = derive_identity mac).
Proof.
  intros Hlen. rewrite derive_identity_hex2.
  split; [reflexivity |].
  split; [rewrite concat_hex2_length, Hlen; reflexivity |].
  split; [apply concat_hex2_upper |].
  intros env flash d Hmac Hd. rewrite <- derive_identity_hex2, <- Hmac.
  now apply boot_identity with (flash := flash).
Qed.

Lemma C8_derive_identity_witness :
  derive_identity [Byte.x24; Byte.x6f; Byte.x28; Byte.x0a; Byte.x00; Byte.xfc]
  = "246F280A00FC".
Proof.
  destruct (C8_derive_identity
              [Byte.x24; Byte.x6f; Byte.x28; Byte.x0a; Byte.x00; Byte.xfc]
              eq_refl) as [H _].
  rewrite H. reflexivity.
Defined.

Section AccessPointName.

(** [String(b, HEX)] drops the leading zero of a byte below 16 and renders
    any other byte with two digits. *)
Lemma String_of_byte_hex_upper (b : Byte.byte) :
  toUpperCase (String_of_byte b HEX)
  = if (Byte.to_N b <? 16)%N
    then String (upper_hex_digit (Byte.to_N b)) EmptyString
    else hex2 b.
Proof. destruct b; vm_compute; reflexivity. Qed.

(** When none of the last three bytes is below 16 the name has the six
    digits the header comment of the sketch promises. *)
Lemma apName_six_digits (mac : list Byte.byte) :
  (16 <=? Byte.to_N (mac_at mac 3))%N = true ->
  (16 <=? Byte.to_N (mac_at mac 4))%N = true ->
  (16 <=? Byte.to_N (mac_at mac 5))%N = true ->
  apName mac
  = "AGROFLOWSENSOR-" +:+ hex2 (mac_at mac 3) +:+ hex2 (mac_at mac 4)
                      +:+ hex2 (mac_at mac 5).
Proof.
  intros H3 H4 H5. unfold apName.
  rewrite !toUpperCase_app, !String_of_byte_hex_upper.
  apply N.leb_le in H3, H4, H5.
  destruct (N.ltb_spec (Byte.to_N (mac_at mac 3)) 16); [lia |].
  destruct (N.ltb_spec (Byte.to_N (mac_at mac 4)) 16); [lia |].
  destruct (N.ltb_spec (Byte.to_N (mac_at mac 5)) 16); [lia |].
  reflexivity.
Qed.

End AccessPointName.

(** C4 (the code departs from the claim): for the address
    24:6F:28:0A:0B:0C the portal's access-point name carries three hex
    characters after the dash, not six, because [String(mac[i], HEX)] does
    not pad; the identity computed in [setup] from the same address pads
    each byte. *)
Theorem C4_apName_not_padded :
  let mac := [Byte.x24; Byte.x6f; Byte.x28; Byte.x0a; Byte.x0b; Byte.x0c] in
  apName mac = "AGROFLOWSENSOR-ABC"
  /\ apName mac <> "AGROFLOWSENSOR-" +:+ hex2 (mac_at mac 3) +:+ hex2 (mac_at mac 4)
                                     +:+ hex2 (mac_at mac 5)
  /\ String.length (apName mac) = (String.length "AGROFLOWSENSOR-" + 3)%nat
  /\ derive_identity mac = "246F280A0B0C".
Proof.
  cbv zeta. split; [vm_compute; reflexivity |].
  split; [vm_compute; discriminate |].
  split; vm_compute; reflexivity.
Qed.

Section Scan.

(** After the first index the loop puts a comma in front of every named
    entry. *)
Lemma scan_loop_succ (i : nat) (nets : list ScannedNetwork) (json : string) :
  scan_loop (S i) nets json
  = json +:+ concat_strings
               (List.map (fun net => "," +:+ scan_entry net) (List.filter named nets)).
Proof.
  revert i json. induction nets as [|net rest IH]; intros i json.
  - cbn. now rewrite append_empty_r.
  - cbn [scan_loop List.filter]. unfold named at 1.
    destruct (String.eqb (net_ssid net) EmptyString); cbn [negb].
    + apply IH.
    + rewrite IH. cbn [List.map concat_strings Nat.ltb Nat.leb].
      now rewrite !append_assoc.
Qed.

Lemma join_comma_cons (x : string) (l : list string) :
  join_comma (x :: l) = x +:+ concat_strings (List.map (fun y => "," +:+ y) l).
Proof.
  revert x. induction l as [|y l IH]; intros x.
  - cbn. now rewrite append_empty_r.
  - change (join_comma (x :: y :: l)) with (x +:+ "," +:+ join_comma (y :: l)).
    rewrite IH. cbn [List.map concat_strings]. now rewrite !append_assoc.
Qed.

(** A scan whose first entry is named is rendered as the spec says. *)
Lemma handleScan_json_head_named (net : ScannedNetwork) (rest : list ScannedNetwork) :
  named net = true ->
  handleScan_json (net :: rest) = scan_json_spec (net :: rest).
Proof.
  intros Hn. unfold handleScan_json, scan_json_spec.
  cbn [scan_loop List.filter]. rewrite Hn.
  unfold named in Hn. apply negb_true_iff in Hn. rewrite Hn.
  cbn [Nat.ltb Nat.leb]. rewrite scan_loop_succ.
  cbn [List.map]. rewrite join_comma_cons, List.map_map.
  now rewrite !append_assoc.
Qed.

(** A scan whose first entry is hidden gets a comma in front of every named
    entry, the first one included. *)
Lemma handleScan_json_head_hidden (net : ScannedNetwork) (rest : list ScannedNetwork) :
  named net = false ->
  handleScan_json (net :: rest)
  = "[" +:+ concat_strings
              (List.map (fun n => "," +:+ scan_entry n) (List.filter named rest))
        +:+ "]".
Proof.
  intros Hn. unfold handleScan_json. cbn [scan_loop].
  unfold named in Hn. apply negb_false_iff in Hn. rewrite Hn.
  rewrite scan_loop_succ. now rewrite !append_assoc.
Qed.

End Scan.

(** C1 (the code departs from the claim): for a scan that reports a hidden
    network first and the network A (-40 dBm) second, [handleScan] sends an
    array that opens with a comma, which is not a JSON text; the array the
    spec describes for the same scan is well formed.  Scans with no entry,
    and the spec's two-network scenario, are rendered as claimed. *)
Theorem C1_scan_hidden_first_not_json :
  let hidden := {| net_ssid := EmptyString; net_rssi := -50 |} in
  let a := {| net_ssid := "A"; net_rssi := -40 |} in
  let b := {| net_ssid := "B"; net_rssi := -70 |} in
  handleScan_json [hidden; a] = "[," +:+ scan_entry a +:+ "]"
  /\ Json.well_formed (handleScan_json [hidden; a]) = false
  /\ scan_json_spec [hidden; a] = "[" +:+ scan_entry a +:+ "]"
  /\ Json.well_formed (scan_json_spec [hidden; a]) = true
  /\ handleScan_json [] = "[]"
  /\ handleScan_json [a; b] = scan_json_spec [a; b]
  /\ Json.well_formed (handleScan_json [a; b]) = true
  /\ snd (handleScan [hidden; a] (power_on ∅)) = Returned tt (power_on ∅)
  /\ fst (handleScan [hidden; a] (power_on ∅))
     = [WiFiScanNetworks;
        HttpSend 200 "application/json" (Body ("[," +:+ scan_entry a +:+ "]"))].
Proof.
  cbv zeta. repeat split; vm_compute; reflexivity.
Qed.

Section Sensor.

Lemma wrap32_small (z : Z) : - 2 ^ 31 <= z < 2 ^ 31 -> wrap32 z = z.
Proof. intros H. unfold wrap32. rewrite Z.mod_small; lia. Qed.

Lemma constrain_range (amt low high : Z) :
  low <= high -> low <= constrain amt low high <= high.
Proof.
  intros H. unfold constrain.
  destruct (Z.ltb_spec amt low); [lia |].
  destruct (Z.gtb_spec amt high); lia.
Qed.

Lemma quot_neg_1500 (p : Z) : Z.quot p (-1500) = - Z.quot p 1500.
Proof. change (-1500) with (Z.opp 1500). apply Z.quot_opp_r. lia. Qed.

(** Inside the range of [analogRead]'s result type nothing wraps, and
    [map] is the truncated quotient: on the dry side of the calibration
    point it is a negated floor division, on the wet side a floor
    division. *)
Lemma map_calibration_dry (raw : Z) :
  2850 <= raw <= 65535 ->
  Arduino.map raw DRY_VALUE WET_VALUE 0 100 = - (((raw - 2850) * 100) / 1500).
Proof.
  intros H. unfold Arduino.map, DRY_VALUE, WET_VALUE.
  change (wrap32 (1350 - 2850)) with (-1500).
  change (wrap32 (100 - 0)) with 100.
  change (-1500 =? 0) with false. cbv iota.
  rewrite (wrap32_small (raw - 2850)) by lia.
  rewrite (wrap32_small ((raw - 2850) * 100)) by lia.
  rewrite Z.add_0_r, quot_neg_1500, Z.quot_div_nonneg by lia.
  apply wrap32_small. Z.to_euclidean_division_equations. lia.
Qed.

Lemma map_calibration_wet (raw : Z) :
  0 <= raw <= 2850 ->
  Arduino.map raw DRY_VALUE WET_VALUE 0 100 = ((2850 - raw) * 100) / 1500.
Proof.
  intros H. unfold Arduino.map, DRY_VALUE, WET_VALUE.
  change (wrap32 (1350 - 2850)) with (-1500).
  change (wrap32 (100 - 0)) with 100.
  change (-1500 =? 0) with false. cbv iota.
  rewrite (wrap32_small (raw - 2850)) by lia.
  rewrite (wrap32_small ((raw - 2850) * 100)) by lia.
  rewrite Z.add_0_r, quot_neg_1500.
  replace ((raw - 2850) * 100) with (- ((2850 - raw) * 100)) by lia.
  rewrite Z.quot_opp_l, Z.opp_involutive, Z.quot_div_nonneg by lia.
  apply wrap32_small. Z.to_euclidean_division_equations. lia.
Qed.

Lemma readSensorData_result (raw : Z) (d : Device) :
  snd (readSensorData raw d) = Returned (humidityPercent raw) d.
Proof. unfold readSensorData. run. reflexivity. Qed.

End Sensor.

(** C9: for every raw value [analogRead] can return, [readSensorData]
    returns a value in [0,100]; at the dry calibration constant it returns
    0, at the wet one 100, and beyond either constant the result is clamped
    to 0 and to 100 respectively. *)
Theorem C9_readSensorData_range (raw : Z) (d : Device) :
  0 <= raw <= 65535 ->
  exists h,
    snd (readSensorData raw d) = Returned h d
    /\ 0 <= h <= 100
    /\ (raw = DRY_VALUE -> h = 0)
    /\ (raw = WET_VALUE -> h = 100)
    /\ (DRY_VALUE < raw -> h = 0)
    /\ (raw < WET_VALUE -> h = 100).
Proof.
  intros Hraw. exists (humidityPercent raw).
  split; [apply readSensorData_result |].
  split; [apply constrain_range; lia |].
  unfold humidityPercent, DRY_VALUE, WET_VALUE.
  repeat split.
  - intros ->. reflexivity.
  - intros ->. reflexivity.
  - intros Hdry. fold DRY_VALUE WET_VALUE. rewrite map_calibration_dry by lia.
    unfold constrain.
    destruct (Z.ltb_spec (- ((raw - 2850) * 100 / 1500)) 0); [reflexivity |].
    destruct (Z.gtb_spec (- ((raw - 2850) * 100 / 1500)) 100);
      Z.to_euclidean_division_equations; lia.
  - intros Hwet. fold DRY_VALUE WET_VALUE. rewrite map_calibration_wet by lia.
    unfold constrain.
    destruct (Z.ltb_spec ((2850 - raw) * 100 / 1500) 0);
      [Z.to_euclidean_division_equations; lia |].
    destruct (Z.gtb_spec ((2850 - raw) * 100 / 1500) 100); [reflexivity |].
    Z.to_euclidean_division_equations; lia.
Qed.

Lemma C9_readSensorData_range_witness :
  exists h,
    snd (readSensorData 2100 (power_on ∅)) = Returned h (power_on ∅)
    /\ 0 <= h <= 100
    /\ (2100 = DRY_VALUE -> h = 0)
    /\ (2100 = WET_VALUE -> h = 100)
    /\ (DRY_VALUE < 2100 -> h = 0)
    /\ (2100 < WET_VALUE -> h = 100).
Proof. apply (C9_readSensorData_range 2100 (power_on ∅)). lia. Defined.

Section Traces.

Lemma count_app (p : event -> bool) (a b : list event) :
  count p (a ++ b) = (count p a + count p b)%nat.
Proof. unfold count. now rewrite List.filter_app, List.length_app. Qed.

Lemma total_delay_app (a b : list event) :
  total_delay (a ++ b) = total_delay a + total_delay b.
Proof.
  induction a as [|e a IH]; [reflexivity |].
  destruct e; cbn [app total_delay]; rewrite IH; lia.
Qed.

Lemma count_rounds (p : event -> bool) (n : nat) :
  count p (List.concat (List.repeat poll_round n)) = (n * count p poll_round)%nat.
Proof.
  induction n as [|n IH]; [reflexivity |].
  cbn [List.repeat List.concat]. rewrite count_app, IH. lia.
Qed.

End Traces.

Section Connect.

Variable wifi : nat -> bool.
Hypothesis never_connected : forall k, wifi k = false.

(** With the access point out of reach the loop makes one round for every
    value 0, 1, ..., 40 of [retries] and escalates at the end of the last
    one. *)
Lemma connect_loop_never (fuel polls : nat) (retries : Z) (d : Device) :
  0 <= retries <= 40 ->
  (Z.to_nat (41 - retries) <= fuel)%nat ->
  fst (connect_loop fuel wifi polls retries d)
  = (List.concat (List.repeat poll_round (Z.to_nat (41 - retries))) ++ escalation)%list
  /\ snd (connect_loop fuel wifi polls retries d)
     = Restarted (if started (preferences d) then ∅ else nvs (preferences d)).
Proof.
  revert polls retries.
  induction fuel as [|fuel IH]; intros polls retries Hr Hfuel; [lia |].
  cbn [connect_loop]. run. rewrite never_connected. prim. run.
  destruct (Z.gtb_spec (retries + 1) 40) as [Hlast|Hmore].
  - assert (retries = 40) as -> by lia.
    run. unfold clearConfigAndRestart. run.
    split; [reflexivity |].
    destruct (started (preferences d)); reflexivity.
  - run.
    destruct (IH (S polls) (retries + 1)) as [Ht Hres]; [lia | lia |].
    rewrite Ht, Hres.
    replace (Z.to_nat (41 - retries)) with (S (Z.to_nat (41 - (retries + 1)))) by lia.
    split; reflexivity.
Qed.

End Connect.

Section ConnectTotal.

(** The fuel [setup] gives the connect loop is never used up, whatever the
    radio answers. *)
Lemma connect_loop_total (wifi : nat -> bool) (fuel polls : nat) (retries : Z) (d : Device) :
  0 <= retries <= 40 ->
  (Z.to_nat (41 - retries) <= fuel)%nat ->
  snd (connect_loop fuel wifi polls retries d) <> OutOfFuel.
Proof.
  revert polls retries.
  induction fuel as [|fuel IH]; intros polls retries Hr Hfuel; [lia |].
  cbn [connect_loop]. run.
  destruct (wifi polls); prim; [discriminate |].
  run.
  destruct (Z.gtb_spec (retries + 1) 40) as [Hlast|Hmore]; run.
  - rewrite clearConfigAndRestart_result. discriminate.
  - apply IH; lia.
Qed.

(** [setup], up to the decision it takes on the stored configuration. *)
Lemma boot_unfold (env : BootEnv) (flash : gmap string string) :
  boot_reset_low env = false ->
  boot env flash
  = if String.eqb (stored_ssid env flash) EmptyString then
      ((boot_preamble env ++ portal_events env)%list, Serving (booted env flash))
    else
      ((boot_preamble env ++ join_events env flash
          ++ fst (join_phase env (joining env flash)))%list,
       snd (join_phase env (joining env flash))).
Proof.
  intros Hpin.
  rewrite (surjective_pairing (boot env flash)).
  unfold boot, setup, power_on. run. rewrite Hpin. run. prim. run.
  unfold join_phase, join_events.
  unfold stored_ssid, stored_password, booted, joining, derive_identity, boot_preamble.
  destruct (boot_store_opens env);
    destruct (String.eqb _ EmptyString) eqn:E; rewrite ?E;
    unfold startConfigurationPortal, portal_events; run; reflexivity.
Qed.

(** A boot with the reset pin held low restarts at once; the store is not
    open yet, so nothing is erased. *)
Lemma boot_reset_pin (env : BootEnv) (flash : gmap string string) :
  boot_reset_low env = true ->
  boot env flash
  = ([Delay 1000;
      SerialPrintln (nl +:+ nl +:+ "Iniciando dispositivo...");
      WiFiMacAddress;
      SerialPrint "ID unico deste dispositivo: ";
      SerialPrintln (derive_identity (boot_mac env));
      DigitalRead RESET_PIN_1;
      SerialPrintln "Reset fisico detectado na inicializacao!";
      SerialPrintln "Limpando todas as configuracoes e reiniciando...";
      PrefsClear; Delay 1000; EspRestart],
     Restarted flash).
Proof.
  intros Hpin.
  rewrite (surjective_pairing (boot env flash)).
  unfold boot, setup, power_on, clearConfigAndRestart. run. rewrite Hpin. run.
  reflexivity.
Qed.

(** The join phase ends in operation or in a restart, and leaves the
    globals alone. *)
Lemma join_phase_result (env : BootEnv) (d : Device) :
  snd (join_phase env d) = Returned tt d
  \/ exists flash, snd (join_phase env d) = Restarted flash.
Proof.
  unfold join_phase. run.
  pose proof (connect_loop_device connect_fuel (boot_wifi env) 0 0 d) as Hd.
  pose proof (connect_loop_total (boot_wifi env) connect_fuel 0 0 d) as Ht.
  destruct (snd (connect_loop connect_fuel (boot_wifi env) 0 0 d)) as [[] d'|flash|d'|].
  - subst d'. left. run. reflexivity.
  - right. eauto.
  - contradiction.
  - exfalso. apply Ht; [lia | unfold connect_fuel; lia | reflexivity].
Qed.

End ConnectTotal.

Section Joining.

Lemma connect_loop_no_join fuel wifi polls retries d ssid password :
  ~ In (WiFiBegin ssid password) (fst (connect_loop fuel wifi polls retries d)).
Proof.
  revert polls retries.
  induction fuel as [|fuel IH]; intros polls retries; [intros [] |].
  cbn [connect_loop]. run.
  destruct (wifi polls); run.
  { cbn [In]. intuition discriminate. }
  destruct (retries + 1 >? 40); run.
  - unfold clearConfigAndRestart. run. cbn [In]. intuition discriminate.
  - intros [H|[H|[H|H]]]; try discriminate. exact (IH _ _ H).
Qed.

Lemma join_phase_no_join env d ssid password :
  ~ In (WiFiBegin ssid password) (fst (join_phase env d)).
Proof.
  unfold join_phase. run.
  pose proof (connect_loop_no_join connect_fuel (boot_wifi env) 0 0 d ssid password) as Hc.
  destruct (snd (connect_loop connect_fuel (boot_wifi env) 0 0 d)); [| exact Hc ..].
  run. rewrite in_app_iff. cbn [In]. intuition discriminate.
Qed.

(** A stored name that is not empty comes from an opened store. *)
Lemma stored_ssid_opens env flash :
  stored_ssid env flash <> EmptyString -> boot_store_opens env = true.
Proof. unfold stored_ssid. destruct (boot_store_opens env); congruence. Qed.

(** With the access point out of reach the join phase is 41 rounds and the
    escalation. *)
Lemma join_phase_never env d :
  (forall k, boot_wifi env k = false) ->
  fst (join_phase env d) = (List.concat (List.repeat poll_round 41) ++ escalation)%list
  /\ snd (join_phase env d)
     = Restarted (if started (preferences d) then ∅ else nvs (preferences d)).
Proof.
  intros Hnever. unfold join_phase. run.
  destruct (connect_loop_never (boot_wifi env) Hnever connect_fuel 0 0 d) as [Ht Hr];
    [lia | unfold connect_fuel; lia |].
  rewrite Hr, Ht. split; reflexivity.
Qed.

End Joining.

(** C2, refuted as stated: with credentials stored and an access point that
    never answers, the boot polls the connection status 41 times (and waits
    500 ms 41 times) before it escalates, not 40 times. *)
Lemma C2_forty_polls_refuted :
  (forall k, boot_wifi (sample_boot true never) k = false)
  /\ count is_status_poll (fst (boot (sample_boot true never) home_flash)) = 41%nat
  /\ count is_status_poll (fst (boot (sample_boot true never) home_flash)) <> 40%nat
  /\ count (is_delay_of 500) (fst (boot (sample_boot true never) home_flash)) <> 40%nat.
Proof.
  split; [reflexivity |].
  split; [vm_compute; reflexivity |].
  split; vm_compute; discriminate.
Qed.

(** C2, amended: if the join never succeeds, the connect loop of [setup]
    performs exactly 41 status polls, each followed by a 500 ms wait, and
    then takes the clear-and-restart path, which leaves the store empty. *)
Theorem C2_connect_retry_budget (env : BootEnv) (flash : gmap string string) :
  boot_reset_low env = false ->
  stored_ssid env flash <> EmptyString ->
  (forall k, boot_wifi env k = false) ->
  fst (boot env flash)
  = (boot_preamble env ++ join_events env flash
       ++ List.concat (List.repeat poll_round 41) ++ escalation)%list
  /\ count is_status_poll (fst (boot env flash)) = 41%nat
  /\ count (is_delay_of 500) (fst (boot env flash)) = 41%nat
  /\ count is_clear (fst (boot env flash)) = 1%nat
  /\ snd (boot env flash) = Restarted ∅.
Proof.
  intros Hpin Hssid Hnever.
  rewrite boot_unfold by exact Hpin.
  apply String.eqb_neq in Hssid as Hneq. rewrite Hneq. cbn [fst snd].
  destruct (join_phase_never env (joining env flash) Hnever) as [Ht Hr].
  rewrite Ht, Hr.
  split; [reflexivity |].
  rewrite !count_app, !count_rounds.
  repeat split; try reflexivity.
  cbn [joining preferences started nvs].
  now rewrite (stored_ssid_opens env flash Hssid).
Qed.

Lemma C2_connect_retry_budget_witness :
  count is_status_poll (fst (boot (sample_boot true never) home_flash)) = 41%nat
  /\ snd (boot (sample_boot true never) home_flash) = Restarted ∅.
Proof.
  destruct (C2_connect_retry_budget (sample_boot true never) home_flash)
    as (_ & Hpolls & _ & _ & Hres).
  - reflexivity.
  - vm_compute. discriminate.
  - reflexivity.
  - split; assumption.
Defined.

Section NextBoot.

(** What a boot with the reset pin released does with the store it finds:
    the portal for an empty or missing name, a join attempt otherwise. *)
Lemma boot_portal (env : BootEnv) (flash : gmap string string) :
  boot_reset_low env = false ->
  stored_ssid env flash = EmptyString ->
  boot env flash
  = ((boot_preamble env ++ portal_events env)%list, Serving (booted env flash)).
Proof.
  intros Hpin Hssid. rewrite boot_unfold by exact Hpin. now rewrite Hssid.
Qed.

Lemma boot_connecting (env : BootEnv) (flash : gmap string string) :
  boot_reset_low env = false ->
  stored_ssid env flash <> EmptyString ->
  In (WiFiBegin (stored_ssid env flash) (stored_password env flash))
     (fst (boot env flash))
  /\ lifecycle_of (snd (boot env flash)) <> PortalActive
  /\ lifecycle_of (snd (boot env flash)) <> Undetermined.
Proof.
  intros Hpin Hssid. rewrite boot_unfold by exact Hpin.
  apply String.eqb_neq in Hssid. rewrite Hssid. cbn [fst snd].
  split.
  - rewrite !in_app_iff. right. left. cbn. auto.
  - destruct (join_phase_result env (joining env flash)) as [H|[f H]];
      rewrite H; cbn; split; discriminate.
Qed.

(** Every boot ends in the portal, in operation or in a restart: the model
    of [setup] never runs out of fuel. *)
Lemma boot_total (env : BootEnv) (flash : gmap string string) :
  lifecycle_of (snd (boot env flash)) <> Undetermined.
Proof.
  destruct (boot_reset_low env) eqn:Hpin.
  - rewrite boot_reset_pin by exact Hpin. discriminate.
  - destruct (String.eqb_spec (stored_ssid env flash) EmptyString) as [E|E].
    + rewrite boot_portal by assumption. discriminate.
    + apply boot_connecting; assumption.
Qed.

End NextBoot.

(** C3, refuted as stated: a device operating with the credentials
    Home/secret that finds the network gone restarts without clearing the
    store, and the next boot joins the network again instead of opening the
    portal. *)
Lemma C3_network_loss_clears_refuted :
  let d := joining (sample_boot true at_once) home_flash in
  let pass := sample_pass false true at_once (Some 1700000000) in
  count is_clear (fst (loop 1 pass d)) = 0%nat
  /\ snd (loop 1 pass d) = Restarted home_flash
  /\ home_flash !! "ssid" = Some "Home"
  /\ lifecycle_of (snd (boot (sample_boot true at_once) home_flash)) = Operating
  /\ count is_join (fst (boot (sample_boot true at_once) home_flash)) = 1%nat.
Proof. cbv zeta. repeat split; vm_compute; reflexivity. Qed.

(** C3, amended: when [loop] finds the network gone it waits one second and
    restarts, without touching the store; the next boot therefore decides on
    the same stored credentials, joining the network again when a name is
    stored. *)
Theorem C3_network_loss_restart (fuel : nat) (env : LoopEnv) (d : Device) :
  pin_low env = false ->
  wifi_connected env = false ->
  loop fuel env d
  = ([DigitalRead RESET_PIN_1; WiFiStatus;
      SerialPrintln "Conexao WiFi perdida. Reiniciando para tentar reconectar...";
      Delay 1000; EspRestart],
     Restarted (nvs (preferences d)))
  /\ (forall next : BootEnv,
        boot_reset_low next = false ->
        stored_ssid next (nvs (preferences d)) <> EmptyString ->
        In (WiFiBegin (stored_ssid next (nvs (preferences d)))
                      (stored_password next (nvs (preferences d))))
           (fst (boot next (nvs (preferences d))))
        /\ lifecycle_of (snd (boot next (nvs (preferences d)))) <> PortalActive).
Proof.
  intros Hpin Hwifi. split.
  - rewrite (surjective_pairing (loop fuel env d)).
    unfold loop. run. rewrite Hpin. run. rewrite Hwifi. cbn [negb]. run.
    reflexivity.
  - intros next Hnext Hssid.
    destruct (boot_connecting next (nvs (preferences d)) Hnext Hssid) as (Hin & Hp & _).
    split; assumption.
Qed.

Lemma C3_network_loss_restart_witness :
  snd (loop 1 (sample_pass false true at_once None)
         (joining (sample_boot true at_once) home_flash))
  = Restarted home_flash.
Proof.
  destruct (C3_network_loss_restart 1 (sample_pass false true at_once None)
              (joining (sample_boot true at_once) home_flash) eq_refl eq_refl)
    as [H _].
  rewrite H. reflexivity.
Defined.

(** C6, refuted as stated: a boot on which the store fails to open, with
    credentials in flash, logs exactly what a boot with an opened, empty
    store logs, and goes on into the portal. *)
Lemma C6_store_failure_reported_refuted :
  boot_store_opens (sample_boot false at_once) = false
  /\ fst (boot (sample_boot false at_once) home_flash)
     = fst (boot (sample_boot true at_once) ∅)
  /\ lifecycle_of (snd (boot (sample_boot false at_once) home_flash)) = PortalActive.
Proof. repeat split; vm_compute; reflexivity. Qed.

(** C6, amended: [setup] does not look at the result of opening the store.
    When the store fails to open, the reads return their defaults and the
    boot proceeds into the provisioning portal, with the same events as a
    boot whose store opened and held no keys; the flash is left as it
    was. *)
Theorem C6_store_failure_enters_portal (env : BootEnv) (flash : gmap string string) :
  boot_reset_low env = false ->
  boot_store_opens env = false ->
  fst (boot env flash) = (boot_preamble env ++ portal_events env)%list
  /\ fst (boot env flash) = fst (boot (with_store_opens true env) ∅)
  /\ snd (boot env flash) = Serving (booted env flash)
  /\ lifecycle_of (snd (boot env flash)) = PortalActive
  /\ preferences (booted env flash) = {| started := false; nvs := flash |}.
Proof.
  intros Hpin Hopen.
  assert (Hssid : stored_ssid env flash = EmptyString).
  { unfold stored_ssid. now rewrite Hopen. }
  assert (Hempty : stored_ssid (with_store_opens true env) ∅ = EmptyString).
  { unfold stored_ssid. cbn [with_store_opens boot_store_opens].
    now rewrite lookup_empty. }
  rewrite (boot_portal env flash Hpin Hssid).
  rewrite (boot_portal (with_store_opens true env) ∅ Hpin Hempty).
  cbn [fst snd lifecycle_of booted preferences]. rewrite Hopen.
  repeat split; reflexivity.
Qed.

Lemma C6_store_failure_enters_portal_witness :
  lifecycle_of (snd (boot (sample_boot false at_once) home_flash)) = PortalActive.
Proof.
  destruct (C6_store_failure_enters_portal (sample_boot false at_once) home_flash
              eq_refl eq_refl) as (_ & _ & _ & H & _).
  exact H.
Defined.

(** C5, refuted as stated: in a cycle in which the time is not available
    the sensor has been sampled all the same, before the clock was asked. *)
Lemma C5_no_sampling_without_time_refuted :
  fst (publishSensorData 2100 None (power_on ∅))
  = [AnalogRead SENSOR_PIN;
     SerialPrint "Valor bruto do sensor: "; SerialPrintln "2100";
     GetLocalTime;
     SerialPrintln "Falha ao obter o tempo";
     SerialPrintln "Aguardando sincronizacao de tempo..."]
  /\ count is_sample (fst (publishSensorData 2100 None (power_on ∅))) = 1%nat
  /\ count is_publish (fst (publishSensorData 2100 None (power_on ∅))) = 0%nat.
Proof. repeat split; vm_compute; reflexivity. Qed.

(** C5, amended: each telemetry cycle first samples the sensor and then
    asks for the time.  If the time is unavailable the cycle ends with two
    log lines and publishes nothing; otherwise, when the millisecond
    timestamp is not 0, exactly one document is published.  Every published
    document carries the device identity, the sampled humidity and a
    timestamp greater than 0. *)
Theorem C5_telemetry_cycle (raw : Z) (clock : option Z) (d : Device) :
  (exists rest,
      fst (publishSensorData raw clock d)
      = AnalogRead SENSOR_PIN :: SerialPrint "Valor bruto do sensor: "
          :: SerialPrintln (String_of_int raw) :: GetLocalTime :: rest
      /\ count is_sample rest = 0%nat
      /\ (clock = None ->
          rest = [SerialPrintln "Falha ao obter o tempo";
                  SerialPrintln "Aguardando sincronizacao de tempo..."])
      /\ (forall now, clock = Some now ->
          count is_publish rest
          = if ((now mod 2 ^ 64) * 1000) mod 2 ^ 64 =? 0 then 0%nat else 1%nat))
  /\ snd (publishSensorData raw clock d) = Returned tt d
  /\ published (fun doc => 0 < reading_timestamp doc < 2 ^ 64
                           /\ reading_humidity doc = humidityPercent raw
                           /\ reading_id doc = uniqueId d)
               (fst (publishSensorData raw clock d)).
Proof.
  unfold publishSensorData, readSensorData, getUnixTimestampMillis.
  destruct clock as [now|].
  - run.
    pose proof (Z.mod_pos_bound ((now mod 2 ^ 64) * 1000) (2 ^ 64) ltac:(lia)) as Hts.
    destruct (Z.eqb_spec (((now mod 2 ^ 64) * 1000) mod 2 ^ 64) 0) as [E|E]; run.
    + split; [| split; [reflexivity | cbn; exact I]].
      eexists. split; [reflexivity |].
      split; [reflexivity |]. split; [discriminate |].
      intros now' [= <-]. rewrite E. reflexivity.
    + split; [| split; [reflexivity |]].
      * eexists. split; [reflexivity |].
        split; [reflexivity |]. split; [discriminate |].
        intros now' [= <-].
        destruct (Z.eqb_spec (((now mod 2 ^ 64) * 1000) mod 2 ^ 64) 0); [contradiction |].
        reflexivity.
      * cbn [published reading_timestamp reading_humidity reading_id].
        repeat split; try reflexivity; lia.
  - run. split; [| split; [reflexivity | cbn; exact I]].
    eexists. split; [reflexivity |].
    split; [reflexivity |]. split; [reflexivity |]. discriminate.
Qed.

Section Reconnect.

Variable broker : nat -> bool.
Variable rc : nat -> Z.


(** After [n] refused connects the broker accepts: the loop returns, having
    waited [n] times five seconds without reading the reset pin. *)
Lemma reconnectMQTT_accepted (n fuel k : nat) (d : Device) :
  (forall i, (i < n)%nat -> broker (k + i) = false) ->
  broker (k + n) = true ->
  (n + 2 <= fuel)%nat ->
  snd (reconnectMQTT fuel false broker rc k d) = Returned tt d
  /\ total_delay (fst (reconnectMQTT fuel false broker rc k d)) = 5000 * Z.of_nat n
  /\ count is_pin_read (fst (reconnectMQTT fuel false broker rc k d)) = 0%nat.
Proof.
  revert fuel k.
  induction n as [|n IH]; intros fuel k Hfail Hok Hfuel.
  - destruct fuel as [|[|fuel]]; [lia | lia |].
    rewrite Nat.add_0_r in Hok.
    cbn [reconnectMQTT]. run. rewrite Hok. run.
    repeat split; reflexivity.
  - destruct fuel as [|fuel]; [lia |].
    cbn [reconnectMQTT]. run.
    pose proof (Hfail 0%nat ltac:(lia)) as Hfirst.
    rewrite Nat.add_0_r in Hfirst. rewrite Hfirst. run.
    destruct (IH fuel (S k)) as (Hres & Hdelay & Hpin).
    + intros i Hi. replace (S k + i)%nat with (k + S i)%nat by lia. apply Hfail. lia.
    + replace (S k + n)%nat with (k + S n)%nat by lia. exact Hok.
    + lia.
    + rewrite Hres. split; [reflexivity |].
      cbn [total_delay]. rewrite Hdelay. split; [lia | exact Hpin].
Qed.

End Reconnect.

Section Pass.


(** A pass with the pin released and the network up, on a device that has
    lost the broker: the pin read, the status poll, the reconnect loop and,
    if that returns, the end of the pass. *)
Lemma loop_reconnecting (fuel : nat) (env : LoopEnv) (d : Device) :
  pin_low env = false ->
  wifi_connected env = true ->
  mqtt_connected env = false ->
  loop fuel env d
  = let r := reconnectMQTT fuel false (broker env) (broker_rc env) 0 d in
    match snd r with
    | Returned _ d' =>
        (DigitalRead RESET_PIN_1 :: WiFiStatus :: (fst r ++ fst (pass_tail env d'))%list,
         snd (pass_tail env d'))
    | Restarted flash => (DigitalRead RESET_PIN_1 :: WiFiStatus :: fst r, Restarted flash)
    | Serving d' => (DigitalRead RESET_PIN_1 :: WiFiStatus :: fst r, Serving d')
    | OutOfFuel => (DigitalRead RESET_PIN_1 :: WiFiStatus :: fst r, OutOfFuel)
    end.
Proof.
  intros Hpin Hwifi Hmqtt. cbv zeta.
  rewrite (surjective_pairing (loop fuel env d)).
  unfold loop. fold (pass_tail env).
  run. rewrite Hpin. run. rewrite Hwifi. cbn [negb]. run.
  rewrite Hmqtt. cbn [negb].
  destruct (snd (reconnectMQTT fuel false (broker env) (broker_rc env) 0 d));
    reflexivity.
Qed.

End Pass.


Section Trim.

Lemma list_ascii_app (a b : string) :
  list_ascii_of_string (a +:+ b)
  = (list_ascii_of_string a ++ list_ascii_of_string b)%list.
Proof.
  induction a as [|c a IH]; [reflexivity |].
  rewrite append_cons_l. cbn [list_ascii_of_string app]. now rewrite IH.
Qed.

Lemma string_of_list_app (a b : list ascii) :
  string_of_list_ascii (a ++ b)
  = string_of_list_ascii a +:+ string_of_list_ascii b.
Proof.
  induction a as [|c a IH]; [reflexivity |].
  cbn [app string_of_list_ascii]. now rewrite IH, append_cons_l.
Qed.

Lemma rev_string_app (a b : string) :
  rev_string (a +:+ b) = rev_string b +:+ rev_string a.
Proof.
  unfold rev_string. now rewrite list_ascii_app, rev_app_distr, string_of_list_app.
Qed.

Lemma rev_string_involutive (s : string) : rev_string (rev_string s) = s.
Proof.
  unfold rev_string.
  now rewrite list_ascii_of_string_of_list_ascii, rev_involutive,
    string_of_list_ascii_of_string.
Qed.

Lemma all_chars_rev (p : ascii -> bool) (s : string) :
  all_chars p (rev_string s) = all_chars p s.
Proof.
  induction s as [|c s IH]; [reflexivity |].
  change (String c s) with (String c EmptyString +:+ s).
  rewrite rev_string_app, !all_chars_app, IH.
  change (rev_string (String c EmptyString)) with (String c EmptyString).
  apply andb_comm.
Qed.

Lemma drop_space_spaces (ws s : string) :
  all_chars isspace ws = true -> drop_space (ws +:+ s) = drop_space s.
Proof.
  induction ws as [|c ws IH]; intros H; [reflexivity |].
  cbn [all_chars] in H. apply andb_true_iff in H as [Hc Hws].
  rewrite append_cons_l. cbn [drop_space]. rewrite Hc. auto.
Qed.

Lemma drop_space_solid (s t : string) :
  starts_solid s = true -> drop_space (s +:+ t) = s +:+ t.
Proof.
  destruct s as [|c s]; [discriminate |]. cbn [starts_solid].
  intros H. apply negb_true_iff in H.
  rewrite append_cons_l. cbn [drop_space]. now rewrite H.
Qed.

(** What [drop_space] removes is white space. *)
Lemma drop_space_split (s : string) :
  exists ws, all_chars isspace ws = true /\ s = ws +:+ drop_space s.
Proof.
  induction s as [|c s (ws & Hws & Hs)].
  - exists EmptyString. split; reflexivity.
  - cbn [drop_space]. destruct (isspace c) eqn:Hc.
    + exists (String c ws). split.
      * cbn [all_chars]. now rewrite Hc, Hws.
      * rewrite append_cons_l. now rewrite <- Hs.
    + exists EmptyString. split; reflexivity.
Qed.

(** [trim] undoes any padding with white space of a text that has none at
    its ends. *)
Lemma trim_padded (before word after : string) :
  all_chars isspace before = true ->
  all_chars isspace after = true ->
  starts_solid word = true ->
  starts_solid (rev_string word) = true ->
  trim (before +:+ word +:+ after) = word.
Proof.
  intros Hb Ha Hw Hr. unfold trim.
  rewrite drop_space_spaces by exact Hb.
  rewrite drop_space_solid by exact Hw.
  rewrite rev_string_app, drop_space_spaces by (now rewrite all_chars_rev).
  rewrite <- (append_empty_r (rev_string word)).
  rewrite drop_space_solid by exact Hr.
  rewrite append_empty_r. apply rev_string_involutive.
Qed.

(** Every text is its trimmed text with white space around it. *)
Lemma trim_split (s : string) :
  exists before after,
    all_chars isspace before = true
    /\ all_chars isspace after = true
    /\ s = before +:+ trim s +:+ after.
Proof.
  destruct (drop_space_split s) as (before & Hb & Hs).
  destruct (drop_space_split (rev_string (drop_space s))) as (ws & Hws & Hr).
  exists before, (rev_string ws). split; [exact Hb |].
  split; [now rewrite all_chars_rev |].
  unfold trim. rewrite <- rev_string_app, <- Hr, rev_string_involutive.
  exact Hs.
Qed.

Lemma tolower_solid (c : ascii) : isspace (tolower c) = false -> isspace c = false.
Proof.
  destruct c as [[] [] [] [] [] [] [] []]; vm_compute; congruence.
Qed.

(** A spelling of RESET has five letters and no white space at its ends. *)
Lemma reset_word_solid (word : string) :
  toLowerCase word = "reset" ->
  starts_solid word = true /\ starts_solid (rev_string word) = true.
Proof.
  destruct word as [|c1 [|c2 [|c3 [|c4 [|c5 [|c6 w]]]]]]; try discriminate.
  cbn [toLowerCase]. intros [= H1 _ _ _ H5].
  split.
  - cbn [starts_solid]. rewrite (tolower_solid c1); [reflexivity |].
    rewrite H1. reflexivity.
  - change (rev_string (String c1 (String c2 (String c3 (String c4 (String c5 EmptyString))))))
      with (String c5 (String c4 (String c3 (String c2 (String c1 EmptyString))))).
    cbn [starts_solid]. rewrite (tolower_solid c5); [reflexivity |].
    rewrite H5. reflexivity.
Qed.

(** The test of the command handler accepts exactly the reset requests. *)
Lemma reset_request_test (message : string) :
  equalsIgnoreCase (trim message) "RESET" = true <-> reset_request message.
Proof.
  unfold equalsIgnoreCase. rewrite String.eqb_eq.
  change (toLowerCase "RESET") with "reset".
  split.
  - intros H. destruct (trim_split message) as (before & after & Hb & Ha & Hm).
    exists before, (trim message), after. auto.
  - intros (before & word & after & Hb & Ha & Hw & ->).
    destruct (reset_word_solid word Hw) as [Hs Hr].
    now rewrite trim_padded.
Qed.

Lemma c_str_empty_payload (payload : string) :
  (0 <? String.length payload)%nat = false -> c_str payload = EmptyString.
Proof. destruct payload; [reflexivity | discriminate]. Qed.

Lemma reset_request_nonempty : ~ reset_request EmptyString.
Proof.
  intros (before & word & after & _ & _ & Hw & Hm).
  destruct before; [| discriminate].
  destruct word; discriminate.
Qed.

End Trim.

(** What the command handler does with a payload, by cases on the
    payload being a reset request. *)
Lemma mqttCallback_cases (topic payload : string) (d : Device) :
  (reset_request (c_str payload) ->
   snd (mqttCallback topic payload d)
   = Restarted (if started (preferences d) then ∅ else nvs (preferences d))
   /\ count is_clear (fst (mqttCallback topic payload d)) = 1%nat)
  /\ (~ reset_request (c_str payload) ->
      snd (mqttCallback topic payload d) = Returned tt d
      /\ count is_clear (fst (mqttCallback topic payload d)) = 0%nat
      /\ count is_restart (fst (mqttCallback topic payload d)) = 0%nat).
Proof.
  unfold mqttCallback. run.
  destruct (0 <? String.length payload)%nat eqn:Hlen; run.
  - destruct (equalsIgnoreCase (trim (c_str payload)) "RESET") eqn:Htest; run.
    + split; [| intros Hno; exfalso; apply Hno; now apply reset_request_test].
      intros _. unfold clearConfigAndRestart. run.
      split; [destruct (started (preferences d)) |]; reflexivity.
    + split; [| intros _; repeat split; reflexivity].
      intros Hreq. apply reset_request_test in Hreq. congruence.
  - split; [| intros _; repeat split; reflexivity].
    intros Hreq. rewrite c_str_empty_payload in Hreq by exact Hlen.
    destruct (reset_request_nonempty Hreq).
Qed.

(** X1: the command handler restarts the device, after erasing an opened
    store, exactly when the payload (read up to its first NUL byte) spells
    RESET in any mix of cases with white space around it; on any other
    payload, the empty one included, it returns and leaves the globals and
    the store as they were. *)
Theorem X1_mqttCallback_reset (topic payload : string) (d : Device) :
  (reset_request (c_str payload) ->
   snd (mqttCallback topic payload d)
   = Restarted (if started (preferences d) then ∅ else nvs (preferences d))
   /\ count is_clear (fst (mqttCallback topic payload d)) = 1%nat)
  /\ (~ reset_request (c_str payload) ->
      snd (mqttCallback topic payload d) = Returned tt d
      /\ count is_clear (fst (mqttCallback topic payload d)) = 0%nat
      /\ count is_restart (fst (mqttCallback topic payload d)) = 0%nat).
Proof. exact (mqttCallback_cases topic payload d). Qed.

Lemma X1_mqttCallback_reset_witness :
  snd (mqttCallback "sensors/246F280A0B0C/command"
         ("  Reset " +:+ String "000"%char "ignored")
         (joining (sample_boot true at_once) home_flash))
  = Restarted ∅.
Proof.
  destruct (X1_mqttCallback_reset "sensors/246F280A0B0C/command"
              ("  Reset " +:+ String "000"%char "ignored")
              (joining (sample_boot true at_once) home_flash)) as [Hreset _].
  destruct Hreset as [Hres _].
  - exists "  ", "Reset", " ". repeat split; reflexivity.
  - exact Hres.
Defined.

Section Resets.

Lemma no_join_count (t : list event) :
  (forall ssid password, ~ In (WiFiBegin ssid password) t) ->
  count is_join t = 0%nat.
Proof.
  induction t as [|e t IH]; intros H; [reflexivity |].
  unfold count in *. cbn [List.filter].
  destruct e; cbn [is_join];
    try (apply IH; intros ? ? Hin; exact (H _ _ (or_intror Hin))).
  exfalso. exact (H _ _ (or_introl eq_refl)).
Qed.

(** A boot that finds no name to join opens the portal without a join
    attempt. *)
Lemma boot_portal_no_join (env : BootEnv) (flash : gmap string string) :
  boot_reset_low env = false ->
  stored_ssid env flash = EmptyString ->
  lifecycle_of (snd (boot env flash)) = PortalActive
  /\ count is_join (fst (boot env flash)) = 0%nat.
Proof.
  intros Hpin Hssid. rewrite boot_portal by assumption.
  split; [reflexivity |]. cbn [fst]. rewrite count_app. reflexivity.
Qed.

Lemma stored_ssid_empty_flash (env : BootEnv) : stored_ssid env ∅ = EmptyString.
Proof.
  unfold stored_ssid. rewrite lookup_empty. now destruct (boot_store_opens env).
Qed.

(** A boot that finds a name joins with it, once. *)
Lemma boot_joins_once (env : BootEnv) (flash : gmap string string) :
  boot_reset_low env = false ->
  stored_ssid env flash <> EmptyString ->
  count is_join (fst (boot env flash)) = 1%nat.
Proof.
  intros Hpin Hssid. rewrite boot_unfold by exact Hpin.
  apply String.eqb_neq in Hssid. rewrite Hssid. cbn [fst].
  rewrite !count_app.
  rewrite (no_join_count (fst (join_phase env (joining env flash)))).
  - reflexivity.
  - intros s p. apply join_phase_no_join.
Qed.

End Resets.

(** X2: a pass of the main loop that finds the reset pin low erases the
    opened store and restarts, whatever the state of the network and of the
    broker, before anything else is looked at; the next boot with the pin
    released opens the provisioning portal without a join attempt. *)
Theorem X2_physical_reset_in_operation
    (fuel : nat) (env : LoopEnv) (d : Device) (next : BootEnv) :
  pin_low env = true ->
  started (preferences d) = true ->
  boot_reset_low next = false ->
  loop fuel env d
  = ([DigitalRead RESET_PIN_1;
      SerialPrintln "Reset fisico detectado durante a operacao!";
      SerialPrintln "Limpando todas as configuracoes e reiniciando...";
      PrefsClear; Delay 1000; EspRestart],
     Restarted ∅)
  /\ lifecycle_of (snd (boot next ∅)) = PortalActive
  /\ count is_join (fst (boot next ∅)) = 0%nat.
Proof.
  intros Hpin Hstarted Hnext. split.
  - rewrite (surjective_pairing (loop fuel env d)).
    unfold loop, clearConfigAndRestart. run. rewrite Hpin. run.
    rewrite Hstarted. reflexivity.
  - apply boot_portal_no_join; [exact Hnext | apply stored_ssid_empty_flash].
Qed.

Lemma X2_physical_reset_in_operation_witness :
  snd (loop 0 {| pin_low := true; wifi_connected := false; mqtt_connected := false;
                 broker := never; broker_rc := fun _ => -2; incoming := None;
                 millis := 0; analog := 0; clock := None |}
         (joining (sample_boot true at_once) home_flash))
  = Restarted ∅.
Proof.
  destruct (X2_physical_reset_in_operation 0
              {| pin_low := true; wifi_connected := false; mqtt_connected := false;
                 broker := never; broker_rc := fun _ => -2; incoming := None;
                 millis := 0; analog := 0; clock := None |}
              (joining (sample_boot true at_once) home_flash)
              (sample_boot true at_once) eq_refl eq_refl eq_refl) as [H _].
  rewrite H. reflexivity.
Defined.

(** X3: a boot that finds the reset pin low calls the clear-and-restart
    path before the store has been opened: the clear has no effect and the
    device restarts with the flash contents it had, so credentials stored
    before are joined again on the first boot with the pin released. *)
Theorem X3_reset_pin_at_boot_keeps_store
    (env next : BootEnv) (flash : gmap string string) :
  boot_reset_low env = true ->
  boot_reset_low next = false ->
  stored_ssid next flash <> EmptyString ->
  snd (boot env flash) = Restarted flash
  /\ count is_clear (fst (boot env flash)) = 1%nat
  /\ count is_join (fst (boot env flash)) = 0%nat
  /\ In (WiFiBegin (stored_ssid next flash) (stored_password next flash))
        (fst (boot next flash))
  /\ lifecycle_of (snd (boot next flash)) <> PortalActive.
Proof.
  intros Hlow Hnext Hssid.
  rewrite boot_reset_pin by exact Hlow. cbn [fst snd].
  split; [reflexivity |]. split; [reflexivity |]. split; [reflexivity |].
  destruct (boot_connecting next flash Hnext Hssid) as (Hin & Hp & _).
  split; assumption.
Qed.

Lemma X3_reset_pin_at_boot_keeps_store_witness :
  snd (boot {| boot_mac := sample_mac; boot_reset_low := true;
               boot_store_opens := true; boot_wifi := at_once;
               boot_localIP := "192.168.0.7"; boot_softAPIP := "192.168.4.1" |}
         home_flash)
  = Restarted home_flash.
Proof.
  destruct (X3_reset_pin_at_boot_keeps_store
              {| boot_mac := sample_mac; boot_reset_low := true;
                 boot_store_opens := true; boot_wifi := at_once;
                 boot_localIP := "192.168.0.7"; boot_softAPIP := "192.168.4.1" |}
              (sample_boot true at_once) home_flash eq_refl eq_refl) as [H _].
  - vm_compute. discriminate.
  - exact H.
Defined.

Section ConnectedPass.

(** A pass with the pin released, the network up and the broker connected
    is the pin read, the status poll and the end of the pass. *)
Lemma loop_connected (fuel : nat) (env : LoopEnv) (d : Device) :
  pin_low env = false ->
  wifi_connected env = true ->
  mqtt_connected env = true ->
  loop fuel env d
  = (DigitalRead RESET_PIN_1 :: WiFiStatus :: fst (pass_tail env d),
     snd (pass_tail env d)).
Proof.
  intros Hpin Hwifi Hmqtt.
  rewrite (surjective_pairing (loop fuel env d)).
  unfold loop. fold (pass_tail env).
  run. rewrite Hpin. run. rewrite Hwifi. cbn [negb]. run.
  rewrite Hmqtt. cbn [negb]. run.
  destruct (snd (pass_tail env d)); reflexivity.
Qed.

(** The message handed over by [mqtt.loop()] goes to the command handler
    with the device's command topic. *)
Lemma pass_tail_command (env : LoopEnv) (d : Device) (payload : string) :
  incoming env = Some payload ->
  reset_request (c_str payload) ->
  snd (pass_tail env d)
  = Restarted (if started (preferences d) then ∅ else nvs (preferences d))
  /\ fst (pass_tail env d) = MqttLoop :: fst (mqttCallback (commandTopic d) payload d).
Proof.
  intros Hin Hreq. unfold pass_tail, mqtt_loop. rewrite Hin. run.
  destruct (mqttCallback_cases (commandTopic d) payload d) as [Hreset _].
  destruct (Hreset Hreq) as [Hres _]. rewrite Hres. split; reflexivity.
Qed.

End ConnectedPass.

(** X4: in a pass with the pin released, the network up and the broker
    connected, a reset request handed over by [mqtt.loop()] erases the
    opened store and restarts the device before any telemetry; the next
    boot with the pin released opens the provisioning portal. *)
Theorem X4_remote_reset_in_operation
    (fuel : nat) (env : LoopEnv) (d : Device) (payload : string) (next : BootEnv) :
  pin_low env = false ->
  wifi_connected env = true ->
  mqtt_connected env = true ->
  incoming env = Some payload ->
  reset_request (c_str payload) ->
  started (preferences d) = true ->
  boot_reset_low next = false ->
  snd (loop fuel env d) = Restarted ∅
  /\ count is_clear (fst (loop fuel env d)) = 1%nat
  /\ count is_sample (fst (loop fuel env d)) = 0%nat
  /\ count is_publish (fst (loop fuel env d)) = 0%nat
  /\ lifecycle_of (snd (boot next ∅)) = PortalActive.
Proof.
  intros Hpin Hwifi Hmqtt Hin Hreq Hstarted Hnext.
  rewrite (loop_connected fuel env d Hpin Hwifi Hmqtt). cbn [fst snd].
  destruct (pass_tail_command env d payload Hin Hreq) as [Hres Htrace].
  rewrite Hres, Htrace, Hstarted.
  split; [reflexivity |].
  assert (Hcb : fst (mqttCallback (commandTopic d) payload d)
                = [SerialPrint "Mensagem recebida no topico: ";
                   SerialPrintln (commandTopic d);
                   SerialPrint "Payload recebido: '";
                   SerialPrint (c_str payload);
                   SerialPrintln "'";
                   SerialPrintln "Comando de reset valido! Reiniciando...";
                   SerialPrintln "Limpando todas as configuracoes e reiniciando...";
                   PrefsClear; Delay 1000; EspRestart]).
  { unfold mqttCallback, clearConfigAndRestart. run.
    destruct (0 <? String.length payload)%nat eqn:Hlen.
    - apply reset_request_test in Hreq. rewrite Hreq. run. reflexivity.
    - rewrite c_str_empty_payload in Hreq by exact Hlen.
      destruct (reset_request_nonempty Hreq). }
  rewrite Hcb.
  repeat split; try reflexivity.
  apply boot_portal_no_join; [exact Hnext | apply stored_ssid_empty_flash].
Qed.

Lemma X4_remote_reset_in_operation_witness :
  snd (loop 1 {| pin_low := false; wifi_connected := true; mqtt_connected := true;
                 broker := never; broker_rc := fun _ => -2;
                 incoming := Some "reset"; millis := 6000; analog := 2100;
                 clock := Some 1700000000 |}
         (joining (sample_boot true at_once) home_flash))
  = Restarted ∅.
Proof.
  destruct (X4_remote_reset_in_operation 1
              {| pin_low := false; wifi_connected := true; mqtt_connected := true;
                 broker := never; broker_rc := fun _ => -2;
                 incoming := Some "reset"; millis := 6000; analog := 2100;
                 clock := Some 1700000000 |}
              (joining (sample_boot true at_once) home_flash) "reset"
              (sample_boot true at_once) eq_refl eq_refl eq_refl eq_refl) as [H _].
  - exists EmptyString, "reset", EmptyString. repeat split; reflexivity.
  - reflexivity.
  - reflexivity.
  - exact H.
Defined.

Section Save.

Lemma handleSave_run (ssid password : string) (d : Device) :
  handleSave ssid password d
  = ([PrefsPutString "ssid" ssid; PrefsPutString "password" password;
      HttpSend 200 "text/html" (Body responsePage); Delay 3000; EspRestart],
     Restarted (if started (preferences d)
                then <["password" := password]> (<["ssid" := ssid]> (nvs (preferences d)))
                else nvs (preferences d))).
Proof.
  destruct d as [[[] flash] id topic last]; reflexivity.
Qed.

Lemma saved_lookup (ssid password : string) (flash : gmap string string) :
  (<["password" := password]> (<["ssid" := ssid]> flash) : gmap string string) !! "ssid"
  = Some ssid
  /\ (<["password" := password]> (<["ssid" := ssid]> flash) : gmap string string)
       !! "password" = Some password.
Proof.
  split.
  - rewrite lookup_insert_ne by discriminate. apply lookup_insert_eq.
  - apply lookup_insert_eq.
Qed.

End Save.

(** X5: credentials submitted to [/save] on an opened store are read back
    unchanged by the next boot: the store holds the submitted name and
    password (the latter possibly empty) and every other key as before, the
    confirmation page is sent before a wait of three seconds and the
    restart, and a boot with the pin released and the store opened joins
    with exactly these credentials, once. *)
Theorem X5_save_then_boot
    (ssid password : string) (d : Device) (next : BootEnv) :
  started (preferences d) = true ->
  ssid <> EmptyString ->
  boot_reset_low next = false ->
  boot_store_opens next = true ->
  exists flash,
    handleSave ssid password d
    = ([PrefsPutString "ssid" ssid; PrefsPutString "password" password;
        HttpSend 200 "text/html" (Body responsePage); Delay 3000; EspRestart],
       Restarted flash)
    /\ flash !! "ssid" = Some ssid
    /\ flash !! "password" = Some password
    /\ (forall key, key <> "ssid" -> key <> "password" ->
                    flash !! key = nvs (preferences d) !! key)
    /\ In (WiFiBegin ssid password) (fst (boot next flash))
    /\ count is_join (fst (boot next flash)) = 1%nat
    /\ lifecycle_of (snd (boot next flash)) <> PortalActive.
Proof.
  intros Hstarted Hssid Hnext Hopens.
  exists (<["password" := password]> (<["ssid" := ssid]> (nvs (preferences d)))).
  destruct (saved_lookup ssid password (nvs (preferences d))) as [Hs Hp].
  split; [rewrite handleSave_run, Hstarted; reflexivity |].
  split; [exact Hs |]. split; [exact Hp |].
  split.
  { intros key H1 H2. now rewrite !lookup_insert_ne by congruence. }
  set (flash := <["password" := password]> (<["ssid" := ssid]> (nvs (preferences d)))) in *.
  assert (Hss : stored_ssid next flash = ssid).
  { unfold stored_ssid. now rewrite Hopens, Hs. }
  assert (Hsp : stored_password next flash = password).
  { unfold stored_password. now rewrite Hopens, Hp. }
  assert (Hne : stored_ssid next flash <> EmptyString) by now rewrite Hss.
  destruct (boot_connecting next flash Hnext Hne) as (Hin & Hportal & _).
  rewrite Hss, Hsp in Hin.
  split; [exact Hin |]. split; [| exact Hportal].
  now apply boot_joins_once.
Qed.

Lemma X5_save_then_boot_witness :
  exists flash,
    snd (handleSave "Home" EmptyString (booted (sample_boot true at_once) ∅))
    = Restarted flash
    /\ In (WiFiBegin "Home" EmptyString) (fst (boot (sample_boot true at_once) flash)).
Proof.
  destruct (X5_save_then_boot "Home" EmptyString
              (booted (sample_boot true at_once) ∅) (sample_boot true at_once)
              eq_refl ltac:(discriminate) eq_refl eq_refl)
    as (flash & Hrun & _ & _ & _ & Hin & _).
  exists flash. rewrite Hrun. split; [reflexivity | exact Hin].
Defined.

(** X6: when the store failed to open, the portal that the boot enters
    cannot save anything: [/save] answers with the confirmation page and
    restarts, but the flash contents are the ones from before the boot,
    whatever was submitted. *)
Theorem X6_save_on_unopened_store
    (env : BootEnv) (flash : gmap string string) (ssid password : string) :
  boot_reset_low env = false ->
  boot_store_opens env = false ->
  exists d,
    snd (boot env flash) = Serving d
    /\ handleSave ssid password d
       = ([PrefsPutString "ssid" ssid; PrefsPutString "password" password;
           HttpSend 200 "text/html" (Body responsePage); Delay 3000; EspRestart],
          Restarted flash).
Proof.
  intros Hpin Hopens. exists (booted env flash).
  assert (Hssid : stored_ssid env flash = EmptyString).
  { unfold stored_ssid. now rewrite Hopens. }
  rewrite (boot_portal env flash Hpin Hssid). split; [reflexivity |].
  rewrite handleSave_run. cbn [booted preferences started nvs]. now rewrite Hopens.
Qed.

Lemma X6_save_on_unopened_store_witness :
  exists d,
    snd (boot (sample_boot false at_once) home_flash) = Serving d
    /\ snd (handleSave "Other" "pw" d) = Restarted home_flash.
Proof.
  destruct (X6_save_on_unopened_store (sample_boot false at_once) home_flash
              "Other" "pw" eq_refl eq_refl) as (d & Hboot & Hsave).
  exists d. rewrite Hsave. split; [exact Hboot | reflexivity].
Defined.

Section ConnectSuccess.

Variable wifi : nat -> bool.

(** The access point answers the poll number [polls + k] and none before:
    the loop makes [k] rounds and leaves at the next poll. *)
Lemma connect_loop_joined (k fuel polls : nat) (retries : Z) (d : Device) :
  (forall i, (i < k)%nat -> wifi (polls + i) = false) ->
  wifi (polls + k) = true ->
  0 <= retries ->
  retries + Z.of_nat k <= 40 ->
  (k < fuel)%nat ->
  connect_loop fuel wifi polls retries d
  = ((List.concat (List.repeat poll_round k) ++ [WiFiStatus])%list, Returned tt d).
Proof.
  revert fuel polls retries.
  induction k as [|k IH]; intros fuel polls retries Hfail Hok Hr Hbudget Hfuel;
    (destruct fuel as [|fuel]; [lia |]);
    rewrite (surjective_pairing (connect_loop (S fuel) wifi polls retries d));
    cbn [connect_loop]; run.
  - rewrite Nat.add_0_r in Hok. rewrite Hok. run. reflexivity.
  - pose proof (Hfail 0%nat ltac:(lia)) as Hfirst.
    rewrite Nat.add_0_r in Hfirst. rewrite Hfirst. run.
    destruct (Z.gtb_spec (retries + 1) 40) as [Hover|_]; [lia |]. run.
    rewrite (IH fuel (S polls) (retries + 1)).
    + reflexivity.
    + intros i Hi. replace (S polls + i)%nat with (polls + S i)%nat by lia.
      apply Hfail. lia.
    + replace (S polls + k)%nat with (polls + S k)%nat by lia. exact Hok.
    + lia.
    + lia.
    + lia.
Qed.

(** Whatever the access point answers, the loop polls at most as often as
    the budget left allows and waits accordingly. *)
Lemma connect_loop_bounded (fuel polls : nat) (retries : Z) (d : Device) :
  0 <= retries <= 40 ->
  (count is_status_poll (fst (connect_loop fuel wifi polls retries d))
   <= Z.to_nat (41 - retries))%nat
  /\ 0 <= total_delay (fst (connect_loop fuel wifi polls retries d))
     <= 500 * (41 - retries) + 1000.
Proof.
  revert polls retries.
  induction fuel as [|fuel IH]; intros polls retries Hr.
  - cbn. split; lia.
  - cbn [connect_loop]. run.
    destruct (wifi polls); run.
    + cbn. split; lia.
    + destruct (Z.gtb_spec (retries + 1) 40) as [Hover|Hmore]; run.
      * unfold clearConfigAndRestart. run. cbn. split; lia.
      * destruct (IH (S polls) (retries + 1) ltac:(lia)) as [Hc Hd].
        unfold count in *. cbn [List.filter is_status_poll List.length total_delay].
        split; lia.
Qed.

End ConnectSuccess.

Section JoinOutcome.

Lemma join_phase_bounded (env : BootEnv) (d : Device) :
  (count is_status_poll (fst (join_phase env d)) <= 41)%nat
  /\ 0 <= total_delay (fst (join_phase env d)) <= 21500.
Proof.
  unfold join_phase. run.
  destruct (connect_loop_bounded (boot_wifi env) connect_fuel 0 0 d ltac:(lia))
    as [Hc Hd].
  change (Z.to_nat (41 - 0)) with 41%nat in Hc.
  set (polls := count is_status_poll (fst (connect_loop connect_fuel (boot_wifi env) 0 0 d))) in *.
  set (wait := total_delay (fst (connect_loop connect_fuel (boot_wifi env) 0 0 d))) in *.
  destruct (snd (connect_loop connect_fuel (boot_wifi env) 0 0 d)); run;
    rewrite ?count_app, ?total_delay_app; fold polls wait;
    cbn [count List.filter is_status_poll List.length total_delay]; split; lia.
Qed.

Lemma substring_all (n : nat) (s : string) :
  (String.length s <= n)%nat -> String.substring 0 n s = s.
Proof.
  revert n. induction s as [|c s IH]; intros n Hn.
  - destruct n; reflexivity.
  - destruct n as [|n]; [cbn in Hn; lia |].
    cbn [String.substring]. rewrite IH; [reflexivity | cbn in Hn; lia].
Qed.

(** For an address of six bytes the command topic is not truncated. *)
Lemma commandTopic_six_bytes (mac : list Byte.byte) :
  List.length mac = 6%nat ->
  format_commandTopic (derive_identity mac)
  = "sensors/" +:+ derive_identity mac +:+ "/command".
Proof.
  intros Hlen. unfold format_commandTopic. apply substring_all.
  rewrite !length_append, derive_identity_hex2, concat_hex2_length, Hlen.
  cbn. lia.
Qed.

End JoinOutcome.

(** X7: when the access point first answers at the poll number [k], with
    [k] at most 40, the boot makes [k] rounds of poll, wait and dot, leaves
    the loop at the next poll without touching the store, starts the clock
    synchronisation and hands over to the main loop with the identity and
    the command topic set; the 41st poll (k = 40) is the last that can
    succeed. *)
Theorem X7_join_at_poll (env : BootEnv) (flash : gmap string string) (k : nat) :
  boot_reset_low env = false ->
  stored_ssid env flash <> EmptyString ->
  (forall i, (i < k)%nat -> boot_wifi env i = false) ->
  boot_wifi env k = true ->
  (k <= 40)%nat ->
  boot env flash
  = ((boot_preamble env ++ join_events env flash
        ++ List.concat (List.repeat poll_round k)
        ++ [WiFiStatus;
            SerialPrint (nl +:+ "WiFi conectado! IP: ");
            SerialPrintln (boot_localIP env);
            SerialPrintln "Sincronizando relogio com servidor NTP...";
            ConfigTime])%list,
     Returned tt (joining env flash))
  /\ count is_status_poll (fst (boot env flash)) = S k
  /\ count is_clear (fst (boot env flash)) = 0%nat
  /\ nvs (preferences (joining env flash)) = flash
  /\ uniqueId (joining env flash) = derive_identity (boot_mac env)
  /\ (List.length (boot_mac env) = 6%nat ->
      commandTopic (joining env flash)
      = "sensors/" +:+ derive_identity (boot_mac env) +:+ "/command").
Proof.
  intros Hpin Hssid Hfail Hok Hk.
  assert (Hboot : boot env flash
                  = ((boot_preamble env ++ join_events env flash
                        ++ List.concat (List.repeat poll_round k)
                        ++ [WiFiStatus;
                            SerialPrint (nl +:+ "WiFi conectado! IP: ");
                            SerialPrintln (boot_localIP env);
                            SerialPrintln "Sincronizando relogio com servidor NTP...";
                            ConfigTime])%list,
                     Returned tt (joining env flash))).
  { rewrite boot_unfold by exact Hpin.
    apply String.eqb_neq in Hssid. rewrite Hssid.
    unfold join_phase. run.
    rewrite (connect_loop_joined (boot_wifi env) k connect_fuel 0 0 (joining env flash))
      by (try assumption; unfold connect_fuel; lia).
    run. rewrite <- !app_assoc. reflexivity. }
  rewrite Hboot. cbn [fst snd].
  split; [reflexivity |].
  rewrite !count_app, !count_rounds.
  split; [cbn; lia |]. split; [cbn; lia |].
  split; [reflexivity |]. split; [reflexivity |].
  intros Hlen. cbn [joining commandTopic]. now apply commandTopic_six_bytes.
Qed.

Lemma X7_join_at_poll_witness :
  snd (boot (sample_boot true (fun k => (40 <=? k)%nat)) home_flash)
  = Returned tt (joining (sample_boot true (fun k => (40 <=? k)%nat)) home_flash).
Proof.
  destruct (X7_join_at_poll (sample_boot true (fun k => (40 <=? k)%nat)) home_flash 40
              eq_refl) as [H _].
  - vm_compute. discriminate.
  - intros i Hi. cbn [sample_boot boot_wifi]. apply Nat.leb_gt. exact Hi.
  - reflexivity.
  - lia.
  - rewrite H. reflexivity.
Defined.

(** X8: whatever is stored and whatever the hardware answers, a boot polls
    the connection status at most 41 times and spends at most 22.5 seconds
    in waits before it has reached the portal, the main loop or a
    restart. *)
Theorem X8_boot_bounded (env : BootEnv) (flash : gmap string string) :
  (count is_status_poll (fst (boot env flash)) <= 41)%nat
  /\ 0 <= total_delay (fst (boot env flash)) <= 22500
  /\ lifecycle_of (snd (boot env flash)) <> Undetermined.
Proof.
  split; [| split; [| apply boot_total]].
  - destruct (boot_reset_low env) eqn:Hpin.
    + rewrite boot_reset_pin by exact Hpin. cbn. lia.
    + rewrite boot_unfold by exact Hpin.
      destruct (String.eqb (stored_ssid env flash) EmptyString); cbn [fst].
      * rewrite count_app. cbn. lia.
      * rewrite !count_app.
        destruct (join_phase_bounded env (joining env flash)) as [Hc _].
        set (polls := count is_status_poll (fst (join_phase env (joining env flash)))) in *.
        cbn [boot_preamble join_events count List.filter is_status_poll List.length].
        lia.
  - destruct (boot_reset_low env) eqn:Hpin.
    + rewrite boot_reset_pin by exact Hpin. cbn. lia.
    + rewrite boot_unfold by exact Hpin.
      destruct (String.eqb (stored_ssid env flash) EmptyString); cbn [fst].
      * rewrite total_delay_app. cbn. lia.
      * rewrite !total_delay_app.
        destruct (join_phase_bounded env (joining env flash)) as [_ Hd].
        set (wait := total_delay (fst (join_phase env (joining env flash)))) in *.
        cbn [boot_preamble join_events total_delay]. lia.
Qed.

Section Subscribe.

Variable broker : nat -> bool.
Variable rc : nat -> Z.

(** After [n] refused connects and an accepted one the device has asked
    for a connection [n + 1] times under its identity and has subscribed
    once, to its command topic, after the accepted connect. *)
Lemma reconnectMQTT_subscribes (n fuel k : nat) (d : Device) :
  (forall i, (i < n)%nat -> broker (k + i) = false) ->
  broker (k + n) = true ->
  (n + 2 <= fuel)%nat ->
  exists before,
    fst (reconnectMQTT fuel false broker rc k d)
    = (before ++ [SerialPrint "Conectando ao MQTT Broker...";
                  MqttConnect (uniqueId d);
                  SerialPrintln "conectado.";
                  MqttSubscribe (commandTopic d);
                  SerialPrint "Inscrito no topico de comando: ";
                  SerialPrintln (commandTopic d)])%list
    /\ count is_connect before = n
    /\ count is_subscribe before = 0%nat
    /\ (forall id, In (MqttConnect id) before -> id = uniqueId d).
Proof.
  revert fuel k.
  induction n as [|n IH]; intros fuel k Hfail Hok Hfuel.
  - destruct fuel as [|[|fuel]]; [lia | lia |].
    rewrite Nat.add_0_r in Hok.
    exists []. cbn [reconnectMQTT]. run. rewrite Hok. run.
    repeat split; try reflexivity. intros id [].
  - destruct fuel as [|fuel]; [lia |].
    destruct (IH fuel (S k)) as (before & Htrace & Hconn & Hsub & Hid).
    + intros i Hi. replace (S k + i)%nat with (k + S i)%nat by lia. apply Hfail. lia.
    + replace (S k + n)%nat with (k + S n)%nat by lia. exact Hok.
    + lia.
    + exists ([SerialPrint "Conectando ao MQTT Broker...";
               MqttConnect (uniqueId d);
               SerialPrint "falhou, rc=";
               SerialPrint (String_of_int (rc k));
               SerialPrintln " tentando novamente em 5 segundos";
               Delay 5000] ++ before)%list.
      cbn [reconnectMQTT]. run.
      pose proof (Hfail 0%nat ltac:(lia)) as Hfirst.
      rewrite Nat.add_0_r in Hfirst. rewrite Hfirst. run.
      rewrite Htrace. split; [reflexivity |].
      unfold count in *. cbn [List.filter is_connect is_subscribe List.length].
      rewrite Hconn, Hsub.
      split; [reflexivity |]. split; [reflexivity |].
      intros id Hin. cbn [In] in Hin.
      destruct Hin as [H|[H|[H|[H|[H|[H|Hin]]]]]]; try discriminate.
      * now injection H as <-.
      * now apply Hid.
Qed.

End Subscribe.

(** X9: when the broker accepts the connect number [n] of a reconnect, the
    device has presented its identity as client identifier in every
    attempt and subscribes exactly once, right after the accepted connect,
    to its own command topic; for a device that booted with a six-byte
    address this topic is sensors/, the identity and /command. *)
Theorem X9_reconnect_subscribes_command_topic
    (env : BootEnv) (flash : gmap string string)
    (broker : nat -> bool) (rc : nat -> Z) (n fuel : nat) :
  List.length (boot_mac env) = 6%nat ->
  (forall i, (i < n)%nat -> broker i = false) ->
  broker n = true ->
  (n + 2 <= fuel)%nat ->
  let d := joining env flash in
  let t := fst (reconnectMQTT fuel false broker rc 0 d) in
  snd (reconnectMQTT fuel false broker rc 0 d) = Returned tt d
  /\ count is_connect t = S n
  /\ count is_subscribe t = 1%nat
  /\ (forall id, In (MqttConnect id) t -> id = derive_identity (boot_mac env))
  /\ (forall topic, In (MqttSubscribe topic) t ->
                    topic = "sensors/" +:+ derive_identity (boot_mac env) +:+ "/command")
  /\ exists before, t = (before ++ [MqttSubscribe (commandTopic d);
                                   SerialPrint "Inscrito no topico de comando: ";
                                   SerialPrintln (commandTopic d)])%list.
Proof.
  intros Hmac Hfail Hok Hfuel d t.
  destruct (reconnectMQTT_accepted broker rc n fuel 0 d) as (Hres & _ & _);
    [exact Hfail | exact Hok | exact Hfuel |].
  destruct (reconnectMQTT_subscribes broker rc n fuel 0 d)
    as (before & Htrace & Hconn & Hsub & Hid);
    [exact Hfail | exact Hok | exact Hfuel |].
  subst t. rewrite Htrace.
  split; [exact Hres |].
  rewrite !count_app, Hconn, Hsub.
  split; [cbn; lia |]. split; [reflexivity |].
  split; [| split].
  - intros id Hin. apply in_app_iff in Hin as [Hin|Hin]; [now apply Hid |].
    cbn [In] in Hin.
    destruct Hin as [H|[H|[H|[H|[H|[H|[]]]]]]]; try discriminate.
    now injection H as <-.
  - intros topic Hin. apply in_app_iff in Hin as [Hin|Hin].
    + exfalso. clear - Hin Hsub.
      induction before as [|e before IH]; [destruct Hin |].
      unfold count in Hsub. cbn [List.filter] in Hsub.
      destruct Hin as [->|Hin]; [cbn in Hsub; discriminate |].
      destruct (is_subscribe e); [cbn in Hsub; discriminate |].
      exact (IH Hsub Hin).
    + cbn [In] in Hin.
      destruct Hin as [H|[H|[H|[H|[H|[H|[]]]]]]]; try discriminate.
      injection H as <-. subst d. cbn [joining commandTopic].
      now apply commandTopic_six_bytes.
  - exists (before ++ [SerialPrint "Conectando ao MQTT Broker...";
                       MqttConnect (uniqueId d);
                       SerialPrintln "conectado."])%list.
    rewrite <- app_assoc. reflexivity.
Qed.

Lemma X9_reconnect_subscribes_command_topic_witness :
  count is_subscribe
    (fst (reconnectMQTT 4 false (fun k => (2 <=? k)%nat) (fun _ => -2) 0
            (joining (sample_boot true at_once) home_flash))) = 1%nat.
Proof.
  destruct (X9_reconnect_subscribes_command_topic (sample_boot true at_once) home_flash
              (fun k => (2 <=? k)%nat) (fun _ => -2) 2 4 eq_refl)
    as (_ & _ & H & _).
  - intros i Hi. apply Nat.leb_gt. exact Hi.
  - reflexivity.
  - lia.
  - exact H.
Defined.

Section Cycle.

Lemma publishSensorData_returns (raw : Z) (clock : option Z) (d : Device) :
  snd (publishSensorData raw clock d) = Returned tt d
  /\ count is_sample (fst (publishSensorData raw clock d)) = 1%nat
  /\ count is_pin_read (fst (publishSensorData raw clock d)) = 0%nat.
Proof.
  unfold publishSensorData, readSensorData, getUnixTimestampMillis.
  destruct clock as [now|]; run.
  - destruct (((now mod 2 ^ 64) * 1000) mod 2 ^ 64 =? 0); run;
      repeat split; reflexivity.
  - repeat split; reflexivity.
Qed.

(** A quiet pass is the three observations of the pass and, when more than
    five seconds have gone by since the last cycle, a telemetry cycle run
    after the time of the last cycle has been moved to now. *)
Lemma quiet_pass_run (fuel : nat) (env : LoopEnv) (d : Device) :
  quiet_pass env ->
  loop fuel env d
  = if wrap32 (wrap32 (millis env) - lastMsg d) >? 5000 then
      ((DigitalRead RESET_PIN_1 :: WiFiStatus :: MqttLoop
          :: fst (publishSensorData (analog env) (clock env)
                    (with_lastMsg (wrap32 (millis env)) d)))%list,
       Returned tt (with_lastMsg (wrap32 (millis env)) d))
    else ([DigitalRead RESET_PIN_1; WiFiStatus; MqttLoop], Returned tt d).
Proof.
  intros (Hpin & Hwifi & Hmqtt & Hin).
  rewrite (loop_connected fuel env d Hpin Hwifi Hmqtt).
  rewrite (surjective_pairing (pass_tail env d)).
  unfold pass_tail, mqtt_loop. rewrite Hin. run.
  destruct (wrap32 (wrap32 (millis env) - lastMsg d) >? 5000); run.
  - fold (with_lastMsg (wrap32 (millis env)) d).
    destruct (publishSensorData_returns (analog env) (clock env)
                (with_lastMsg (wrap32 (millis env)) d)) as (Hres & _).
    rewrite Hres. reflexivity.
  - reflexivity.
Qed.

End Cycle.

(** X10: a quiet pass runs the telemetry cycle exactly when the 32-bit
    difference between [millis()] and [lastMsg] is greater than 5000: then
    [lastMsg] is set to now and [publishSensorData] runs (one sample, also
    when it then gives up for lack of time); otherwise the pass is the pin
    read, the status poll and [mqtt.loop()] and changes nothing.  Hence a
    quiet pass that follows a sampling one, with a 32-bit difference of the
    two [millis()] readings of at most 5000, does not sample. *)
Theorem X10_telemetry_every_five_seconds (fuel : nat) (env : LoopEnv) (d : Device) :
  quiet_pass env ->
  loop fuel env d
  = (if wrap32 (wrap32 (millis env) - lastMsg d) >? 5000 then
       ((DigitalRead RESET_PIN_1 :: WiFiStatus :: MqttLoop
           :: fst (publishSensorData (analog env) (clock env)
                     (with_lastMsg (wrap32 (millis env)) d)))%list,
        Returned tt (with_lastMsg (wrap32 (millis env)) d))
     else ([DigitalRead RESET_PIN_1; WiFiStatus; MqttLoop], Returned tt d))
  /\ count is_sample (fst (loop fuel env d))
     = (if wrap32 (wrap32 (millis env) - lastMsg d) >? 5000 then 1%nat else 0%nat)
  /\ (forall (later : LoopEnv) (fuel' : nat),
        quiet_pass later ->
        wrap32 (wrap32 (millis later) - wrap32 (millis env)) <= 5000 ->
        loop fuel' later (with_lastMsg (wrap32 (millis env)) d)
        = ([DigitalRead RESET_PIN_1; WiFiStatus; MqttLoop],
           Returned tt (with_lastMsg (wrap32 (millis env)) d))).
Proof.
  intros Hquiet.
  rewrite (quiet_pass_run fuel env d Hquiet).
  split; [reflexivity |]. split.
  - destruct (wrap32 (wrap32 (millis env) - lastMsg d) >? 5000); cbn [fst].
    + destruct (publishSensorData_returns (analog env) (clock env)
                  (with_lastMsg (wrap32 (millis env)) d)) as (_ & Hs & _).
      unfold count in *. cbn [List.filter is_sample]. exact Hs.
    + reflexivity.
  - intros later fuel' Hlater Hgap.
    rewrite (quiet_pass_run fuel' later _ Hlater).
    cbn [with_lastMsg lastMsg].
    destruct (Z.gtb_spec (wrap32 (wrap32 (millis later) - wrap32 (millis env))) 5000);
      [lia | reflexivity].
Qed.

Lemma X10_telemetry_every_five_seconds_witness :
  count is_sample
    (fst (loop 1 (sample_pass true true at_once None)
            (joining (sample_boot true at_once) home_flash))) = 1%nat
  /\ snd (loop 1 (sample_pass true true at_once None)
            (joining (sample_boot true at_once) home_flash))
     = Returned tt (with_lastMsg 6000 (joining (sample_boot true at_once) home_flash)).
Proof.
  destruct (X10_telemetry_every_five_seconds 1
              (sample_pass true true at_once None)
              (joining (sample_boot true at_once) home_flash))
    as (Hrun & Hcount & _).
  - repeat split.
  - split; [exact Hcount |]. rewrite Hrun. reflexivity.
Defined.

Section Calibration.

Lemma humidityPercent_formula (raw : Z) :
  0 <= raw <= 65535 -> humidityPercent raw = humidity_formula raw.
Proof.
  intros Hraw. unfold humidityPercent, humidity_formula, constrain.
  destruct (Z.leb_spec 2850 raw) as [Hdry|Hdry].
  - rewrite map_calibration_dry by lia.
    destruct (Z.ltb_spec (- ((raw - 2850) * 100 / 1500)) 0); [reflexivity |].
    destruct (Z.gtb_spec (- ((raw - 2850) * 100 / 1500)) 100);
      Z.to_euclidean_division_equations; lia.
  - rewrite map_calibration_wet by lia.
    destruct (Z.ltb_spec ((2850 - raw) * 100 / 1500) 0);
      [Z.to_euclidean_division_equations; lia |].
    destruct (Z.leb_spec raw 1350) as [Hwet|Hwet];
      destruct (Z.gtb_spec ((2850 - raw) * 100 / 1500) 100);
      try reflexivity; Z.to_euclidean_division_equations; lia.
Qed.

End Calibration.

(** X11: over the range of [analogRead] the percentage is 0 from the dry
    constant upwards, 100 from the wet constant downwards and, in between,
    the rounded-down share (2850 - raw) * 100 / 1500, below 100; it never
    increases when the raw value increases. *)
Theorem X11_humidity_linear_and_monotone (raw raw' : Z) :
  0 <= raw <= raw' ->
  raw' <= 65535 ->
  humidityPercent raw = humidity_formula raw
  /\ (1350 < raw < 2850 -> 0 <= humidityPercent raw < 100)
  /\ humidityPercent raw' <= humidityPercent raw.
Proof.
  intros Hraw Hmax.
  rewrite !humidityPercent_formula by lia.
  split; [reflexivity |].
  unfold humidity_formula. split.
  - intros Hmid.
    destruct (Z.leb_spec 2850 raw); [lia |].
    destruct (Z.leb_spec raw 1350); [lia |].
    Z.to_euclidean_division_equations; lia.
  - destruct (Z.leb_spec 2850 raw); destruct (Z.leb_spec 2850 raw');
      destruct (Z.leb_spec raw 1350); destruct (Z.leb_spec raw' 1350);
      try lia; Z.to_euclidean_division_equations; lia.
Qed.

Lemma X11_humidity_linear_and_monotone_witness :
  humidityPercent 2100 = 50 /\ humidityPercent 2400 <= humidityPercent 2100.
Proof.
  destruct (X11_humidity_linear_and_monotone 2100 2400 ltac:(lia) ltac:(lia))
    as (Hf & _ & Hm).
  split; [rewrite Hf; reflexivity | exact Hm].
Defined.

(** X12: when the clock gives a time after the epoch whose milliseconds fit
    64 bits, a telemetry cycle publishes exactly one document on the fixed
    topic sensors/humidity, carrying the identity, the percentage of the
    sample just taken and the time in seconds multiplied by 1000, and
    leaves the globals as they were. *)
Theorem X12_publish_document (raw now : Z) (d : Device) :
  0 < now <= 18446744073709551 ->
  publishSensorData raw (Some now) d
  = ([AnalogRead SENSOR_PIN;
      SerialPrint "Valor bruto do sensor: ";
      SerialPrintln (String_of_int raw);
      GetLocalTime;
      MqttPublish "sensors/humidity"
        {| reading_id := uniqueId d;
           reading_humidity := humidityPercent raw;
           reading_timestamp := now * 1000 |};
      SerialPrint "Mensagem publicada: ";
      SerialPrintlnDoc
        {| reading_id := uniqueId d;
           reading_humidity := humidityPercent raw;
           reading_timestamp := now * 1000 |}],
     Returned tt d).
Proof.
  intros Hnow.
  rewrite (surjective_pairing (publishSensorData raw (Some now) d)).
  unfold publishSensorData, readSensorData, getUnixTimestampMillis. run.
  rewrite (Z.mod_small now) by lia.
  rewrite (Z.mod_small (now * 1000)) by lia.
  destruct (Z.eqb_spec (now * 1000) 0); [lia |]. run. reflexivity.
Qed.

Lemma X12_publish_document_witness :
  count is_publish (fst (publishSensorData 2100 (Some 1700000000) (power_on ∅))) = 1%nat.
Proof.
  rewrite (X12_publish_document 2100 1700000000 (power_on ∅)) by lia.
  reflexivity.
Defined.

Section ScanShape.

Lemma scan_entry_opens (net : ScannedNetwork) :
  exists r, scan_entry net = String "{"%char r.
Proof. unfold scan_entry. rewrite append_cons_l. eauto. Qed.

(** The rendering of a scan with a hidden first entry and a named one
    further on is not the spec's array: a comma follows the bracket. *)
Lemma handleScan_json_leading_comma (net : ScannedNetwork) (rest : list ScannedNetwork) :
  named net = false ->
  List.filter named rest <> [] ->
  handleScan_json (net :: rest) <> scan_json_spec (net :: rest).
Proof.
  intros Hn Hrest.
  rewrite handleScan_json_head_hidden by exact Hn.
  unfold scan_json_spec. cbn [List.filter]. rewrite Hn.
  destruct (List.filter named rest) as [|x l]; [congruence |].
  cbn [List.map concat_strings]. rewrite join_comma_cons.
  destruct (scan_entry_opens x) as [r ->].
  rewrite !append_cons_l, !append_nil_l. discriminate.
Qed.

Lemma handleScan_json_all_hidden (net : ScannedNetwork) (rest : list ScannedNetwork) :
  named net = false ->
  List.filter named rest = [] ->
  handleScan_json (net :: rest) = "[]"
  /\ scan_json_spec (net :: rest) = "[]".
Proof.
  intros Hn Hrest.
  rewrite handleScan_json_head_hidden by exact Hn.
  unfold scan_json_spec. cbn [List.filter]. rewrite Hn, Hrest.
  split; reflexivity.
Qed.

End ScanShape.

(** X13: the body [handleScan] sends is the array of the named networks in
    scan order, separated by commas, exactly when the first entry of the
    scan is named or no entry is; in every other scan a comma follows the
    opening bracket. *)
Theorem X13_scan_rendering (nets : list ScannedNetwork) :
  handleScan_json nets = scan_json_spec nets <-> scan_renders_as_spec nets.
Proof.
  destruct nets as [|net rest]; [split; reflexivity |].
  cbn [scan_renders_as_spec]. split.
  - intros Heq. destruct (named net) eqn:Hn; [now left |]. right.
    destruct (List.filter named rest) as [|x l] eqn:Hrest; [reflexivity |].
    exfalso. apply (handleScan_json_leading_comma net rest Hn); [| exact Heq].
    rewrite Hrest. discriminate.
  - intros [Hn|Hrest].
    + now apply handleScan_json_head_named.
    + destruct (named net) eqn:Hn; [now apply handleScan_json_head_named |].
      destruct (handleScan_json_all_hidden net rest Hn Hrest) as [-> ->].
      reflexivity.
Qed.

Section Suffix.

Lemma String_of_byte_hex_length (b : Byte.byte) :
  String.length (String_of_byte b HEX) = if (Byte.to_N b <? 16)%N then 1%nat else 2%nat.
Proof. destruct b; vm_compute; reflexivity. Qed.

Lemma String_of_byte_hex_upper_chars (b : Byte.byte) :
  all_chars is_upper_hex (toUpperCase (String_of_byte b HEX)) = true.
Proof. destruct b; vm_compute; reflexivity. Qed.

Lemma toUpperCase_length (s : string) :
  String.length (toUpperCase s) = String.length s.
Proof. induction s as [|c s IH]; [reflexivity |]. cbn. now rewrite IH. Qed.

Lemma hex2_nibbles (b : Byte.byte) (hi lo : N) :
  Byte.to_N b = (16 * hi + lo)%N -> (lo < 16)%N ->
  hex2 b = String (upper_hex_digit hi) (String (upper_hex_digit lo) EmptyString).
Proof.
  intros Hb Hlo. unfold hex2. rewrite Hb.
  replace ((16 * hi + lo) / 16)%N with hi
    by (apply (N.div_unique _ 16 hi lo); [exact Hlo | reflexivity]).
  replace ((16 * hi + lo) mod 16)%N with lo
    by (apply (N.mod_unique _ 16 hi lo); [exact Hlo | reflexivity]).
  reflexivity.
Qed.

End Suffix.

(** X14: the access-point name is always AGROFLOWSENSOR- followed by the
    three last bytes of the address in uppercase hexadecimal without
    leading zeros: between three and six digits, six of them (two per
    byte) exactly when none of the three bytes is below 16. *)
Theorem X14_apName_shape (mac : list Byte.byte) :
  exists suffix,
    apName mac = "AGROFLOWSENSOR-" +:+ suffix
    /\ all_chars is_upper_hex suffix = true
    /\ (3 <= String.length suffix <= 6)%nat
    /\ (String.length suffix = 6%nat
        <-> (16 <= Byte.to_N (mac_at mac 3) /\ 16 <= Byte.to_N (mac_at mac 4)
             /\ 16 <= Byte.to_N (mac_at mac 5))%N)
    /\ (String.length suffix = 6%nat ->
        suffix = hex2 (mac_at mac 3) +:+ hex2 (mac_at mac 4) +:+ hex2 (mac_at mac 5)).
Proof.
  exists (toUpperCase (String_of_byte (mac_at mac 3) HEX)
          +:+ toUpperCase (String_of_byte (mac_at mac 4) HEX)
          +:+ toUpperCase (String_of_byte (mac_at mac 5) HEX)).
  split; [unfold apName; now rewrite !toUpperCase_app |].
  split; [now rewrite !all_chars_app, !String_of_byte_hex_upper_chars |].
  rewrite !length_append, !toUpperCase_length, !String_of_byte_hex_length.
  rewrite !String_of_byte_hex_upper.
  destruct (N.ltb_spec (Byte.to_N (mac_at mac 3)) 16);
    destruct (N.ltb_spec (Byte.to_N (mac_at mac 4)) 16);
    destruct (N.ltb_spec (Byte.to_N (mac_at mac 5)) 16);
    (split; [lia |]); (split; [split; [intros; lia | intros; lia] |]);
    intros Hlen; solve [reflexivity | cbn in Hlen; lia].
Qed.

(** X15: addresses whose fourth and fifth bytes are 0h, xy and hx, 0y (for
    hexadecimal digits h and x at least 1) get the same access-point name:
    the name does not tell such devices apart, although their identities
    differ. *)
Theorem X15_apName_collision
    (p0 p1 p2 a b a' b' c : Byte.byte) (h x y : N) :
  (1 <= h <= 15)%N -> (1 <= x <= 15)%N -> (y <= 15)%N ->
  Byte.to_N a = h -> Byte.to_N b = (16 * x + y)%N ->
  Byte.to_N a' = (16 * h + x)%N -> Byte.to_N b' = y ->
  apName [p0; p1; p2; a; b; c] = apName [p0; p1; p2; a'; b'; c]
  /\ derive_identity [p0; p1; p2; a; b; c] <> derive_identity [p0; p1; p2; a'; b'; c].
Proof.
  intros Hh Hx Hy Ha Hb Ha' Hb'. split.
  - unfold apName. cbn [mac_at nth].
    rewrite !toUpperCase_app, !String_of_byte_hex_upper.
    rewrite Ha, Hb, Ha', Hb'.
    destruct (N.ltb_spec h 16); [| lia].
    destruct (N.ltb_spec (16 * x + y) 16); [lia |].
    destruct (N.ltb_spec (16 * h + x) 16); [lia |].
    destruct (N.ltb_spec y 16); [| lia].
    rewrite (hex2_nibbles b x y Hb) by lia.
    rewrite (hex2_nibbles a' h x Ha') by lia.
    reflexivity.
  - rewrite !derive_identity_hex2. cbn [List.map concat_strings].
    rewrite (hex2_nibbles a 0 h) by (rewrite ?Ha; lia).
    rewrite (hex2_nibbles a' h x Ha') by lia.
    intros Heq.
    apply (f_equal (fun s => String.get 6 s)) in Heq.
    rewrite !append_cons_l in Heq.
    assert (Hget : forall (u v w : string) k,
               String.length u = 2%nat -> String.length v = 2%nat -> String.length w = 2%nat ->
               String.get 6 (u +:+ v +:+ w +:+ k)
               = String.get 0 k).
    { intros [|u1 [|u2 [|u3 u]]] [|v1 [|v2 [|v3 v]]] [|w1 [|w2 [|w3 w]]] k;
        cbn [String.length]; intros; try discriminate; reflexivity. }
    rewrite !(Hget (hex2 p0) (hex2 p1) (hex2 p2)) in Heq by reflexivity.
    cbn [String.get] in Heq. injection Heq as Heq.
    assert (Hd : forall n, (n <= 15)%N -> hex_value (upper_hex_digit n) = Some n).
    { intros n Hn. rewrite <- (N2Nat.id n).
      assert (Hk : (N.to_nat n < 16)%nat) by lia.
      destruct (N.to_nat n) as [|k]; [reflexivity |].
      do 15 (destruct k as [|k]; [reflexivity |]).
      lia. }
    apply (f_equal hex_value) in Heq.
    rewrite !Hd in Heq by lia. injection Heq as Heq. lia.
Qed.

Lemma X15_apName_collision_witness :
  apName [Byte.x24; Byte.x6f; Byte.x28; Byte.x01; Byte.x23; Byte.x45]
  = apName [Byte.x24; Byte.x6f; Byte.x28; Byte.x12; Byte.x03; Byte.x45].
Proof.
  destruct (X15_apName_collision Byte.x24 Byte.x6f Byte.x28
              Byte.x01 Byte.x23 Byte.x12 Byte.x03 Byte.x45 1 2 3) as [H _].
  - lia.
  - lia.
  - lia.
  - reflexivity.
  - reflexivity.
  - reflexivity.
  - reflexivity.
  - exact H.
Defined.

Section Decode.

Lemma decode_hex_hex2 (b : Byte.byte) (rest : string) :
  decode_hex (hex2 b +:+ rest) = option_map (cons b) (decode_hex rest).
Proof.
  destruct b; reflexivity.
Qed.

End Decode.

(** X16: reading the identity back two hexadecimal digits at a time gives
    the address it was derived from, for an address of any length; so
    different addresses never share an identity. *)
Theorem X16_identity_round_trip (mac mac' : list Byte.byte) :
  decode_hex (derive_identity mac) = Some mac
  /\ (derive_identity mac = derive_identity mac' -> mac = mac').
Proof.
  assert (Hdec : forall m, decode_hex (derive_identity m) = Some m).
  { intros m. rewrite derive_identity_hex2.
    induction m as [|b m IH]; [reflexivity |].
    cbn [List.map concat_strings]. now rewrite decode_hex_hex2, IH. }
  split; [apply Hdec |].
  intros Heq. apply (f_equal decode_hex) in Heq.
  rewrite !Hdec in Heq. now injection Heq.
Qed.

Section StoreKept.

Lemma loop_pin_low (fuel : nat) (env : LoopEnv) (d : Device) :
  pin_low env = true ->
  loop fuel env d
  = ([DigitalRead RESET_PIN_1;
      SerialPrintln "Reset fisico detectado durante a operacao!";
      SerialPrintln "Limpando todas as configuracoes e reiniciando...";
      PrefsClear; Delay 1000; EspRestart],
     Restarted (if started (preferences d) then ∅ else nvs (preferences d))).
Proof.
  intros Hpin. rewrite (surjective_pairing (loop fuel env d)).
  unfold loop, clearConfigAndRestart. run. rewrite Hpin. run.
  destruct (started (preferences d)); reflexivity.
Qed.

Lemma loop_network_lost (fuel : nat) (env : LoopEnv) (d : Device) :
  pin_low env = false ->
  wifi_connected env = false ->
  loop fuel env d
  = ([DigitalRead RESET_PIN_1; WiFiStatus;
      SerialPrintln "Conexao WiFi perdida. Reiniciando para tentar reconectar...";
      Delay 1000; EspRestart],
     Restarted (nvs (preferences d))).
Proof.
  intros Hpin Hwifi. rewrite (surjective_pairing (loop fuel env d)).
  unfold loop. run. rewrite Hpin. run. rewrite Hwifi. cbn [negb]. run.
  reflexivity.
Qed.

(** The reconnect loop returns with the globals it found, or is still
    trying; it never touches the store and never restarts. *)
Lemma reconnectMQTT_keeps (fuel : nat) (connected : bool)
    (broker : nat -> bool) (rc : nat -> Z) (k : nat) (d : Device) :
  count is_put (fst (reconnectMQTT fuel connected broker rc k d)) = 0%nat
  /\ count is_clear (fst (reconnectMQTT fuel connected broker rc k d)) = 0%nat
  /\ (snd (reconnectMQTT fuel connected broker rc k d) = Returned tt d
      \/ snd (reconnectMQTT fuel connected broker rc k d) = OutOfFuel).
Proof.
  revert connected k.
  induction fuel as [|fuel IH]; intros connected k.
  - cbn. auto.
  - cbn [reconnectMQTT]. destruct connected; run; [cbn; auto |].
    destruct (broker k); run.
    + destruct (IH true (S k)) as (Hput & Hclear & Hres).
      unfold count in *. cbn [List.filter is_put is_clear].
      destruct Hres as [-> | ->]; auto.
    + destruct (IH false (S k)) as (Hput & Hclear & Hres).
      unfold count in *. cbn [List.filter is_put is_clear].
      destruct Hres as [-> | ->]; auto.
Qed.

(** The end of a pass leaves the store alone unless a reset request
    arrives, and changes nothing of the globals but the time of the last
    telemetry cycle. *)
Lemma pass_tail_keeps (env : LoopEnv) (d : Device) :
  count is_put (fst (pass_tail env d)) = 0%nat
  /\ match snd (pass_tail env d) with
     | Returned _ d' =>
         preferences d' = preferences d /\ uniqueId d' = uniqueId d
         /\ commandTopic d' = commandTopic d
         /\ count is_clear (fst (pass_tail env d)) = 0%nat
     | Restarted flash =>
         flash = (if started (preferences d) then ∅ else nvs (preferences d))
         /\ count is_clear (fst (pass_tail env d)) = 1%nat
     | Serving _ | OutOfFuel => False
     end.
Proof.
  unfold pass_tail, mqtt_loop, mqttCallback, publishSensorData, readSensorData,
    getUnixTimestampMillis, clearConfigAndRestart.
  destruct (incoming env) as [payload|]; run.
  - destruct (0 <? String.length payload)%nat; run.
    + destruct (equalsIgnoreCase (trim (c_str payload)) "RESET"); run.
      * destruct (started (preferences d)); repeat split; reflexivity.
      * destruct (wrap32 (wrap32 (millis env) - lastMsg d) >? 5000); run;
          [destruct (clock env) as [now|]; run;
           [destruct (((now mod 2 ^ 64) * 1000) mod 2 ^ 64 =? 0); run |] |];
          repeat split; reflexivity.
    + destruct (wrap32 (wrap32 (millis env) - lastMsg d) >? 5000); run;
        [destruct (clock env) as [now|]; run;
         [destruct (((now mod 2 ^ 64) * 1000) mod 2 ^ 64 =? 0); run |] |];
        repeat split; reflexivity.
  - destruct (wrap32 (wrap32 (millis env) - lastMsg d) >? 5000); run;
      [destruct (clock env) as [now|]; run;
       [destruct (((now mod 2 ^ 64) * 1000) mod 2 ^ 64 =? 0); run |] |];
      repeat split; reflexivity.
Qed.

End StoreKept.

(** X17: a pass of the main loop never writes to the store.  When the pass
    returns, the store, the identity and the command topic are the ones it
    started with and nothing was erased; when it restarts the device, the
    flash holds either what it held before (network lost) or, after exactly
    one erase, nothing (reset pin or reset request, on an opened store). *)
Theorem X17_operation_never_writes_store (fuel : nat) (env : LoopEnv) (d : Device) :
  count is_put (fst (loop fuel env d)) = 0%nat
  /\ match snd (loop fuel env d) with
     | Returned _ d' =>
         preferences d' = preferences d /\ uniqueId d' = uniqueId d
         /\ commandTopic d' = commandTopic d
         /\ count is_clear (fst (loop fuel env d)) = 0%nat
     | Restarted flash =>
         (flash = nvs (preferences d)
          /\ (count is_clear (fst (loop fuel env d)) = 0%nat
              \/ started (preferences d) = false))
         \/ (flash = ∅ /\ started (preferences d) = true
             /\ count is_clear (fst (loop fuel env d)) = 1%nat)
     | Serving _ => False
     | OutOfFuel => True
     end.
Proof.
  destruct (pin_low env) eqn:Hpin.
  { rewrite loop_pin_low by exact Hpin. cbn [fst snd].
    split; [reflexivity |].
    destruct (started (preferences d)); [right | left]; auto. }
  destruct (wifi_connected env) eqn:Hwifi.
  2:{ rewrite loop_network_lost by assumption. cbn [fst snd].
      split; [reflexivity |]. left. auto. }
  assert (Htail : forall t,
             count is_put t = 0%nat -> count is_clear t = 0%nat ->
             count is_put (DigitalRead RESET_PIN_1 :: WiFiStatus
                             :: (t ++ fst (pass_tail env d))%list) = 0%nat
             /\ match snd (pass_tail env d) with
                | Returned _ d' =>
                    preferences d' = preferences d /\ uniqueId d' = uniqueId d
                    /\ commandTopic d' = commandTopic d
                    /\ count is_clear (DigitalRead RESET_PIN_1 :: WiFiStatus
                                         :: (t ++ fst (pass_tail env d))%list) = 0%nat
                | Restarted flash =>
                    (flash = nvs (preferences d)
                     /\ (count is_clear (DigitalRead RESET_PIN_1 :: WiFiStatus
                                           :: (t ++ fst (pass_tail env d))%list) = 0%nat
                         \/ started (preferences d) = false))
                    \/ (flash = ∅ /\ started (preferences d) = true
                        /\ count is_clear (DigitalRead RESET_PIN_1 :: WiFiStatus
                                             :: (t ++ fst (pass_tail env d))%list) = 1%nat)
                | Serving _ => False
                | OutOfFuel => True
                end).
  { intros t Hput Hclear.
    destruct (pass_tail_keeps env d) as [Hp Hres].
    change (DigitalRead RESET_PIN_1 :: WiFiStatus :: (t ++ fst (pass_tail env d))%list)
      with ([DigitalRead RESET_PIN_1; WiFiStatus] ++ t ++ fst (pass_tail env d))%list.
    rewrite !count_app, Hput, Hclear, Hp.
    split; [reflexivity |].
    destruct (snd (pass_tail env d)) as [[] d'|flash|d'|];
      [exact Hres | | exact Hres | exact I].
    destruct Hres as [Hflash Hc]. rewrite Hc.
    destruct (started (preferences d)); [right | left]; auto. }
  destruct (mqtt_connected env) eqn:Hmqtt.
  - rewrite loop_connected by assumption. cbn [fst snd].
    exact (Htail [] eq_refl eq_refl).
  - rewrite loop_reconnecting by assumption. cbv zeta.
    destruct (reconnectMQTT_keeps fuel false (broker env) (broker_rc env) 0 d)
      as (Hput & Hclear & [Hres|Hres]); rewrite Hres; cbn [fst snd].
    + exact (Htail _ Hput Hclear).
    + split; [| exact I].
      change (DigitalRead RESET_PIN_1 :: WiFiStatus :: ?t)
        with ([DigitalRead RESET_PIN_1; WiFiStatus] ++ t)%list.
      now rewrite count_app, Hput.
Qed.

Section BootStore.

Lemma connect_loop_keeps (fuel : nat) (wifi : nat -> bool) (polls : nat)
    (retries : Z) (d : Device) :
  count is_put (fst (connect_loop fuel wifi polls retries d)) = 0%nat
  /\ match snd (connect_loop fuel wifi polls retries d) with
     | Restarted flash =>
         flash = (if started (preferences d) then ∅ else nvs (preferences d))
         /\ count is_clear (fst (connect_loop fuel wifi polls retries d)) = 1%nat
     | _ => count is_clear (fst (connect_loop fuel wifi polls retries d)) = 0%nat
     end.
Proof.
  revert polls retries.
  induction fuel as [|fuel IH]; intros polls retries; [cbn; auto |].
  cbn [connect_loop]. run.
  destruct (wifi polls); run; [cbn; auto |].
  destruct (retries + 1 >? 40); run.
  - unfold clearConfigAndRestart. run.
    destruct (started (preferences d)); cbn; auto.
  - destruct (IH (S polls) (retries + 1)) as [Hput Hres].
    unfold count in *. cbn [List.filter is_put is_clear].
    split; [exact Hput |].
    destruct (snd (connect_loop fuel wifi (S polls) (retries + 1) d)); exact Hres.
Qed.

Lemma join_phase_keeps (env : BootEnv) (d : Device) :
  count is_put (fst (join_phase env d)) = 0%nat
  /\ match snd (join_phase env d) with
     | Returned _ d' =>
         d' = d /\ count is_clear (fst (join_phase env d)) = 0%nat
     | Restarted flash =>
         flash = (if started (preferences d) then ∅ else nvs (preferences d))
         /\ count is_clear (fst (join_phase env d)) = 1%nat
     | Serving _ | OutOfFuel => False
     end.
Proof.
  destruct (join_phase_result env d) as [Hres|[flash Hres]]; rewrite Hres;
    revert Hres; unfold join_phase; run;
    pose proof (connect_loop_keeps connect_fuel (boot_wifi env) 0 0 d) as [Hput Hc];
    pose proof (connect_loop_device connect_fuel (boot_wifi env) 0 0 d) as Hd;
    destruct (snd (connect_loop connect_fuel (boot_wifi env) 0 0 d)) as [[] d'|f|d'|];
    run; try discriminate; try contradiction; intros Hres.
  - subst d'. rewrite !count_app, Hput, Hc. repeat split; reflexivity.
  - injection Hres as <-. destruct Hc as [Hf Hc]. auto.
Qed.

End BootStore.

(** X18: with the reset pin released, a boot opens the provisioning portal
    exactly when the name it reads from the store is empty (no name stored,
    an empty name stored, or a store that did not open), and otherwise
    joins once with the stored credentials.  No boot writes to the store;
    the flash is erased only by the escalation of the join, and is
    otherwise handed on as it was found. *)
Theorem X18_boot_decision (env : BootEnv) (flash : gmap string string) :
  boot_reset_low env = false ->
  (lifecycle_of (snd (boot env flash)) = PortalActive
   <-> stored_ssid env flash = EmptyString)
  /\ count is_join (fst (boot env flash))
     = (if String.eqb (stored_ssid env flash) EmptyString then 0%nat else 1%nat)
  /\ count is_put (fst (boot env flash)) = 0%nat
  /\ match snd (boot env flash) with
     | Returned _ d | Serving d =>
         nvs (preferences d) = flash
         /\ count is_clear (fst (boot env flash)) = 0%nat
     | Restarted kept =>
         kept = ∅ /\ count is_clear (fst (boot env flash)) = 1%nat
     | OutOfFuel => False
     end.
Proof.
  intros Hpin.
  destruct (String.eqb_spec (stored_ssid env flash) EmptyString) as [Hssid|Hssid].
  - destruct (boot_portal_no_join env flash Hpin Hssid) as [Hlife Hjoin].
    split; [split; auto |]. split; [exact Hjoin |].
    rewrite boot_portal by assumption. cbn [fst snd].
    rewrite !count_app. repeat split; reflexivity.
  - destruct (boot_connecting env flash Hpin Hssid) as (_ & Hportal & _).
    split; [split; [intros H; contradiction | intros H; contradiction] |].
    split; [now apply boot_joins_once |].
    rewrite boot_unfold by exact Hpin.
    apply String.eqb_neq in Hssid as Hneq. rewrite Hneq. cbn [fst snd].
    destruct (join_phase_keeps env (joining env flash)) as [Hput Hres].
    rewrite !count_app, Hput.
    split; [reflexivity |].
    destruct (snd (join_phase env (joining env flash))) as [[] d'|kept|d'|];
      [ | | destruct Hres | exact Hres].
    + destruct Hres as [-> Hc]. rewrite Hc. split; reflexivity.
    + destruct Hres as [Hkept Hc]. rewrite Hc.
      cbn [joining preferences started nvs] in Hkept.
      rewrite (stored_ssid_opens env flash Hssid) in Hkept.
      split; [exact Hkept | reflexivity].
Qed.

Lemma X18_boot_decision_witness :
  lifecycle_of (snd (boot (sample_boot true at_once) ∅)) = PortalActive.
Proof.
  destruct (X18_boot_decision (sample_boot true at_once) ∅ eq_refl) as [[_ H] _].
  apply H. apply stored_ssid_empty_flash.
Defined.

Section Decimal.

Lemma digit_char_decimal (n : N) :
  (n < 10)%N ->
  Json.is_digit (digit_char n) = true
  /\ (digit_char n = "0"%char -> n = 0%N).
Proof.
  intros Hn. rewrite <- (N2Nat.id n).
  assert (Hk : (N.to_nat n < 10)%nat) by lia.
  destruct (N.to_nat n) as [|k];
    [split; [reflexivity | vm_compute; congruence] |].
  do 9 (destruct k as [|k]; [split; [reflexivity | vm_compute; congruence] |]).
  lia.
Qed.

(** The decimal digits [utoa] produces: at least one, and no leading zero
    in front of others. *)
Lemma utoa_loop_decimal (fuel : nat) (value : N) (acc : string) :
  (value < 2 ^ N.of_nat (S fuel))%N ->
  (0 < value)%N \/ acc = EmptyString ->
  all_chars Json.is_digit acc = true ->
  exists c r,
    utoa_loop fuel value 10 acc = String c r
    /\ Json.is_digit c = true
    /\ all_chars Json.is_digit r = true
    /\ (c = "0"%char -> r = EmptyString).
Proof.
  revert value acc.
  induction fuel as [|fuel IH]; intros value acc Hbound Hlead Hacc.
  - change (2 ^ N.of_nat 1)%N with 2%N in Hbound.
    cbn [utoa_loop].
    destruct (digit_char_decimal (value mod 10)) as [Hd Hz];
      [apply N.mod_lt; lia |].
    exists (digit_char (value mod 10)), acc.
    repeat split; try assumption.
    intros H0. apply Hz in H0. rewrite N.mod_small in H0 by lia.
    destruct Hlead; [lia | assumption].
  - cbn [utoa_loop].
    destruct (digit_char_decimal (value mod 10)) as [Hd Hz];
      [apply N.mod_lt; lia |].
    destruct (N.eqb_spec (value / 10) 0) as [Hq|Hq].
    + exists (digit_char (value mod 10)), acc.
      repeat split; try assumption.
      intros H0. apply Hz in H0.
      assert (value < 10)%N by (apply N.div_small_iff in Hq; lia).
      rewrite N.mod_small in H0 by lia.
      destruct Hlead; [lia | assumption].
    + apply IH.
      * apply N.Div0.div_lt_upper_bound.
        rewrite Nat2N.inj_succ, N.pow_succ_r' in Hbound. nia.
      * left. now apply N.neq_0_lt_0.
      * cbn [all_chars]. now rewrite Hd, Hacc.
Qed.

Lemma utoa_decimal (value : N) :
  exists c r,
    utoa value DEC = String c r
    /\ Json.is_digit c = true
    /\ all_chars Json.is_digit r = true
    /\ (c = "0"%char -> r = EmptyString).
Proof.
  unfold utoa, DEC. cbn [N.ltb N.compare Pos.compare Pos.compare_cont orb].
  apply utoa_loop_decimal; [| now right | reflexivity].
  rewrite Nat2N.inj_succ, N2Nat.id.
  destruct value as [|p]; [reflexivity |].
  apply N.log2_spec. lia.
Qed.

End Decimal.

Section JsonScan.

Lemma plain_char_cases (c : ascii) :
  plain_char c = true ->
  (N_of_ascii c =? 34)%N = false /\ (N_of_ascii c =? 92)%N = false
  /\ (N_of_ascii c <? 32)%N = false.
Proof.
  unfold plain_char. intros H.
  apply andb_true_iff in H as [H H92]. apply andb_true_iff in H as [H32 H34].
  apply negb_true_iff in H92, H34. apply N.leb_le in H32.
  repeat split; try assumption. apply N.ltb_ge. exact H32.
Qed.

Lemma string_body_plain (name rest : string) :
  all_chars plain_char name = true ->
  Json.string_body (name +:+ String "034"%char rest) = Some rest.
Proof.
  induction name as [|c name IH]; intros H.
  - reflexivity.
  - cbn [all_chars] in H. apply andb_true_iff in H as [Hc Hname].
    destruct (plain_char_cases c Hc) as (H34 & H92 & H32).
    rewrite append_cons_l. cbn [Json.string_body].
    rewrite H34, H92, H32. auto.
Qed.

Lemma skip_digits_all (r rest : string) :
  all_chars Json.is_digit r = true ->
  Json.skip_digits (r +:+ String "}"%char rest) = String "}"%char rest.
Proof.
  induction r as [|c r IH]; intros H.
  - reflexivity.
  - cbn [all_chars] in H. apply andb_true_iff in H as [Hc Hr].
    rewrite append_cons_l. cbn [Json.skip_digits]. rewrite Hc. auto.
Qed.

Lemma number_digits (c : ascii) (r rest : string) :
  Json.is_digit c = true ->
  all_chars Json.is_digit r = true ->
  (c = "0"%char -> r = EmptyString) ->
  Json.number (String c (r +:+ String "}"%char rest)) = Some (String "}"%char rest).
Proof.
  intros Hc Hr Hz.
  destruct c as [[] [] [] [] [] [] [] []]; try discriminate Hc.
  all: try (rewrite (Hz eq_refl); reflexivity).
  all: unfold Json.number, Json.digits1; cbv beta iota zeta;
    rewrite Hc; cbv iota; rewrite (skip_digits_all r rest Hr); reflexivity.
Qed.

Lemma number_minus (c : ascii) (t : string) :
  Json.is_digit c = true ->
  Json.number (String "-"%char (String c t)) = Json.number (String c t).
Proof.
  intros Hc.
  destruct c as [[] [] [] [] [] [] [] []]; try discriminate Hc; reflexivity.
Qed.

Lemma value_number (f : nat) (c : ascii) (r : string) :
  Json.is_digit c = true \/ c = "-"%char ->
  Json.value (S f) (String c r) = Json.number (String c r).
Proof.
  intros [H| ->]; [| reflexivity].
  destruct c as [[] [] [] [] [] [] [] []]; try discriminate H; reflexivity.
Qed.

(** The decimal rendering of an integer, closed by a brace, is a value. *)
Lemma value_int (f : nat) (z : Z) (rest : string) :
  Json.value (S f) (String_of_int z +:+ String "}"%char rest)
  = Some (String "}"%char rest).
Proof.
  unfold String_of_int.
  destruct (z <? 0).
  - destruct (utoa_decimal (Z.to_N (- z))) as (c & r & -> & Hc & Hr & Hz).
    rewrite !append_cons_l.
    rewrite value_number by now right.
    rewrite number_minus by exact Hc.
    now apply number_digits.
  - destruct (utoa_decimal (Z.to_N z)) as (c & r & -> & Hc & Hr & Hz).
    rewrite append_cons_l.
    rewrite value_number by now left.
    now apply number_digits.
Qed.

Lemma value_open_object (f : nat) (r : string) :
  Json.value (S f) (String "{"%char (String "034"%char r))
  = Json.members f (String "034"%char r).
Proof. reflexivity. Qed.

Lemma value_open_array (f : nat) (r : string) :
  Json.value (S f) (String "["%char (String "{"%char r))
  = Json.elements f (String "{"%char r).
Proof. reflexivity. Qed.

Lemma value_string (f : nat) (r : string) :
  Json.value (S f) (String "034"%char r) = Json.string_body r.
Proof. reflexivity. Qed.

Lemma members_member (f : nat) (k v r : string) :
  Json.string_body k = Some (String ":"%char v) ->
  Json.value f v = Some r ->
  Json.members (S f) (String "034"%char k)
  = match Json.skip_ws r with
    | String ","%char r' => Json.members f r'
    | String "}"%char r' => Some r'
    | _ => None
    end.
Proof.
  intros Hk Hv.
  change (Json.members (S f) (String "034"%char k))
    with (match Json.string_body k with
          | None => None
          | Some r =>
              match Json.skip_ws r with
              | String ":"%char v =>
                  match Json.value f v with
                  | None => None
                  | Some r =>
                      match Json.skip_ws r with
                      | String ","%char r' => Json.members f r'
                      | String "}"%char r' => Some r'
                      | _ => None
                      end
                  end
              | _ => None
              end
          end).
  rewrite Hk.
  change (Json.skip_ws (String ":"%char v)) with (String ":"%char v).
  cbv iota. rewrite Hv. reflexivity.
Qed.

Lemma elements_element (f : nat) (s r : string) :
  Json.value f s = Some r ->
  Json.elements (S f) s
  = match Json.skip_ws r with
    | String ","%char r' => Json.elements f r'
    | String "]"%char r' => Some r'
    | _ => None
    end.
Proof.
  intros Hv.
  change (Json.elements (S f) s)
    with (match Json.value f s with
          | None => None
          | Some r =>
              match Json.skip_ws r with
              | String ","%char r' => Json.elements f r'
              | String "]"%char r' => Some r'
              | _ => None
              end
          end).
  now rewrite Hv.
Qed.

Lemma scan_entry_chars (net : ScannedNetwork) (rest : string) :
  scan_entry net +:+ rest
  = String "{"%char (String "034"%char
      ("ssid" +:+ String "034"%char (String ":"%char (String "034"%char
         (net_ssid net +:+ String "034"%char (String ","%char (String "034"%char
            ("rssi" +:+ String "034"%char (String ":"%char
               (String_of_int (net_rssi net) +:+ String "}"%char rest)))))))))).
Proof.
  unfold scan_entry, dq, dquote. rewrite !append_assoc. reflexivity.
Qed.

(** One object of the array is a value, whatever follows it. *)
Lemma value_scan_entry (f : nat) (net : ScannedNetwork) (rest : string) :
  plain_name net = true ->
  Json.value (4 + f) (scan_entry net +:+ rest) = Some rest.
Proof.
  intros Hplain. rewrite scan_entry_chars.
  change (4 + f)%nat with (S (S (S (S f)))).
  rewrite value_open_object.
  rewrite (members_member (S (S f)) _ _ _
             (string_body_plain "ssid" _ eq_refl)
             (eq_trans (value_string (S f) _)
                       (string_body_plain (net_ssid net) _ Hplain))).
  change (Json.skip_ws (String ","%char ?x)) with (String ","%char x).
  cbv iota.
  rewrite (members_member (S f) _ _ _
             (string_body_plain "rssi" _ eq_refl)
             (value_int f (net_rssi net) rest)).
  reflexivity.
Qed.

Lemma join_comma_two (x y : string) (l : list string) :
  join_comma (x :: y :: l) = x +:+ "," +:+ join_comma (y :: l).
Proof. reflexivity. Qed.

(** The objects of a scan, separated by commas and closed by a bracket,
    are the elements of an array. *)
Lemma elements_scan (entries : list ScannedNetwork) (f : nat) (rest : string) :
  entries <> [] ->
  forallb plain_name entries = true ->
  Json.elements (List.length entries + 4 + f)
    (join_comma (List.map scan_entry entries) +:+ String "]"%char rest)
  = Some rest.
Proof.
  induction entries as [|x [|y l] IH]; intros Hne Hplain; [congruence | |].
  - cbn [forallb] in Hplain. apply andb_true_iff in Hplain as [Hx _].
    cbn [List.map join_comma List.length].
    change (1 + 4 + f)%nat with (S (4 + f)).
    rewrite (elements_element (4 + f) _ _ (value_scan_entry f x _ Hx)).
    reflexivity.
  - cbn [forallb] in Hplain. apply andb_true_iff in Hplain as [Hx Hrest].
    cbn [List.map]. rewrite join_comma_two, !append_assoc.
    rewrite append_cons_l, append_nil_l.
    change (List.length (x :: y :: l) + 4 + f)%nat
      with (S (List.length (y :: l) + 4 + f)).
    replace (List.length (y :: l) + 4 + f)%nat
      with (4 + (List.length (y :: l) + f))%nat at 1 by lia.
    rewrite (elements_element _ _ _
               (value_scan_entry (List.length (y :: l) + f) x _ Hx)).
    change (Json.skip_ws (String ","%char ?t)) with (String ","%char t).
    cbv iota.
    replace (4 + (List.length (y :: l) + f))%nat
      with (List.length (y :: l) + 4 + f)%nat by lia.
    apply IH; [discriminate | exact Hrest].
Qed.

Lemma scan_entry_length (net : ScannedNetwork) :
  (1 <= String.length (scan_entry net))%nat.
Proof.
  destruct (scan_entry_opens net) as [r ->]. cbn. lia.
Qed.

Lemma join_comma_length (entries : list ScannedNetwork) :
  (List.length entries <= String.length (join_comma (List.map scan_entry entries)))%nat.
Proof.
  induction entries as [|x [|y l] IH]; [cbn; lia | |].
  - cbn [List.map join_comma List.length]. apply scan_entry_length.
  - cbn [List.map]. rewrite join_comma_two, !length_append.
    pose proof (scan_entry_length x). cbn [List.map List.length] in *. lia.
Qed.

(** The array of the spec is a JSON text when the names are plain. *)
Lemma scan_json_spec_well_formed (nets : list ScannedNetwork) :
  forallb plain_name (List.filter named nets) = true ->
  Json.well_formed (scan_json_spec nets) = true.
Proof.
  intros Hplain. unfold scan_json_spec.
  destruct (List.filter named nets) as [|x l] eqn:Hentries; [reflexivity |].
  set (entries := x :: l) in *.
  assert (Hne : entries <> []) by discriminate.
  unfold Json.well_formed.
  rewrite append_cons_l, append_nil_l.
  set (body := join_comma (List.map scan_entry entries) +:+ "]").
  assert (Hopen : exists r, body = String "{"%char r).
  { subst body entries.
    destruct l as [|y l]; cbn [List.map].
    - cbn [join_comma]. rewrite scan_entry_chars. eauto.
    - rewrite join_comma_two, !append_assoc, scan_entry_chars. eauto. }
  assert (Hlen : (List.length entries <= String.length body)%nat).
  { subst body. rewrite length_append. pose proof (join_comma_length entries). lia. }
  assert (Hn : (1 <= List.length entries)%nat) by (subst entries; cbn; lia).
  cbn [String.length].
  replace (2 * S (String.length body) + 2)%nat
    with (S (List.length entries + 4 + (2 * String.length body - List.length entries - 1)))
    by lia.
  destruct Hopen as [r Hr]. rewrite Hr, value_open_array, <- Hr.
  subst body. change "]" with (String "]"%char EmptyString).
  rewrite elements_scan by assumption.
  reflexivity.
Qed.

Lemma value_leading_comma (f : nat) (t : string) :
  Json.value f (String "["%char (String ","%char t)) = None.
Proof. destruct f as [|[|[|f]]]; reflexivity. Qed.

End JsonScan.

(** X19: for a scan whose network names hold no control character, double
    quote or backslash, the body [handleScan] sends is a JSON text exactly
    when the first entry of the scan is named or no entry is; in that case
    it is the spec's array, and otherwise it is rejected for the comma after
    the opening bracket. *)
Theorem X19_scan_body_is_json_iff (nets : list ScannedNetwork) :
  forallb plain_name (List.filter named nets) = true ->
  (Json.well_formed (handleScan_json nets) = true <-> scan_renders_as_spec nets)
  /\ (scan_renders_as_spec nets -> handleScan_json nets = scan_json_spec nets).
Proof.
  intros Hplain.
  assert (Hspec : scan_renders_as_spec nets -> handleScan_json nets = scan_json_spec nets).
  { destruct nets as [|net rest]; [reflexivity |]. cbn [scan_renders_as_spec].
    intros [Hn|Hrest]; [now apply handleScan_json_head_named |].
    destruct (named net) eqn:Hn; [now apply handleScan_json_head_named |].
    destruct (handleScan_json_all_hidden net rest Hn Hrest) as [-> ->]. reflexivity. }
  split; [| exact Hspec].
  split.
  - intros Hwf. destruct nets as [|net rest]; [exact I |].
    cbn [scan_renders_as_spec].
    destruct (named net) eqn:Hn; [now left |]. right.
    destruct (List.filter named rest) as [|x l] eqn:Hrest; [reflexivity |].
    exfalso. rewrite handleScan_json_head_hidden in Hwf by exact Hn.
    rewrite Hrest in Hwf. cbn [List.map concat_strings] in Hwf.
    rewrite !append_cons_l, !append_nil_l in Hwf.
    unfold Json.well_formed in Hwf. rewrite value_leading_comma in Hwf.
    discriminate.
  - intros Hok. rewrite (Hspec Hok). now apply scan_json_spec_well_formed.
Qed.

Lemma X19_scan_body_is_json_iff_witness :
  Json.well_formed
    (handleScan_json [{| net_ssid := "A"; net_rssi := -40 |};
                      {| net_ssid := EmptyString; net_rssi := -50 |};
                      {| net_ssid := "B"; net_rssi := -70 |}]) = true.
Proof.
  destruct (X19_scan_body_is_json_iff
              [{| net_ssid := "A"; net_rssi := -40 |};
               {| net_ssid := EmptyString; net_rssi := -50 |};
               {| net_ssid := "B"; net_rssi := -70 |}] eq_refl) as [[_ H] _].
  apply H. left. reflexivity.
Defined.

(** C10, refuted as stated: on the portal a boot reaches when the store
    failed to open, [/save] with an empty ssid persists nothing; the flash
    still holds the name Home, and the next boot, with the store opened,
    joins Home instead of opening the portal. *)
Lemma C10_empty_ssid_persisted_refuted :
  snd (boot (sample_boot false at_once) home_flash)
  = Serving (booted (sample_boot false at_once) home_flash)
  /\ snd (handleSave EmptyString "secret" (booted (sample_boot false at_once) home_flash))
     = Restarted home_flash
  /\ home_flash !! "ssid" = Some "Home"
  /\ lifecycle_of (snd (boot (sample_boot true at_once) home_flash)) = Operating
  /\ count is_join (fst (boot (sample_boot true at_once) home_flash)) = 1%nat.
Proof. repeat split; vm_compute; reflexivity. Qed.

(** C10, amended: [/save] with an empty ssid sends the confirmation page,
    waits three seconds and restarts.  On a device whose store is open the
    empty string is then stored under the key ssid (and the password under
    its key), and the next boot with the reset pin released reads the name
    as unconfigured: it starts the provisioning portal (access point, DNS,
    web server) and makes no join attempt.  On a device whose store did not
    open nothing is stored and the flash is left as it was.  Whatever is
    stored and whatever the hardware answers, [setup] never calls
    [WiFi.begin] with an empty ssid. *)
Theorem C10_empty_ssid_is_unconfigured (d : Device) (password : string) (next : BootEnv) :
  boot_reset_low next = false ->
  let saved :=
    if started (preferences d)
    then <["password" := password]> (<["ssid" := EmptyString]> (nvs (preferences d)))
    else nvs (preferences d) in
  handleSave EmptyString password d
  = ([PrefsPutString "ssid" EmptyString; PrefsPutString "password" password;
      HttpSend 200 "text/html" (Body responsePage); Delay 3000; EspRestart],
     Restarted saved)
  /\ (started (preferences d) = true ->
      saved !! "ssid" = Some EmptyString
      /\ saved !! "password" = Some password
      /\ boot next saved
         = ((boot_preamble next ++ portal_events next)%list,
            Serving (booted next saved))
      /\ count is_join (fst (boot next saved)) = 0%nat)
  /\ (started (preferences d) = false -> saved = nvs (preferences d))
  /\ (forall env flash ssid pw,
        In (WiFiBegin ssid pw) (fst (boot env flash)) -> ssid <> EmptyString).
Proof.
  intros Hpin saved.
  split; [apply handleSave_run |].
  split; [| split].
  - intros Hstarted. subst saved. rewrite Hstarted.
    destruct (saved_lookup EmptyString password (nvs (preferences d))) as [Hs Hp].
    split; [exact Hs |]. split; [exact Hp |].
    assert (Hssid : stored_ssid next
                      (<["password" := password]>
                         (<["ssid" := EmptyString]> (nvs (preferences d))))
                    = EmptyString).
    { unfold stored_ssid. rewrite Hs. now destruct (boot_store_opens next). }
    split; [now apply boot_portal |].
    now apply boot_portal_no_join.
  - intros Hstarted. subst saved. now rewrite Hstarted.
  - intros env flash ssid pw Hin.
    destruct (boot_reset_low env) eqn:Hlow.
    + rewrite boot_reset_pin in Hin by exact Hlow. cbn [fst In] in Hin.
      intuition discriminate.
    + rewrite boot_unfold in Hin by exact Hlow.
      destruct (String.eqb (stored_ssid env flash) EmptyString) eqn:E; cbn [fst] in Hin.
      * apply in_app_iff in Hin as [Hin|Hin]; cbn [boot_preamble portal_events In] in Hin;
          intuition discriminate.
      * apply String.eqb_neq in E.
        apply in_app_iff in Hin as [Hin|Hin];
          [cbn [boot_preamble In] in Hin; intuition discriminate |].
        apply in_app_iff in Hin as [Hin|Hin].
        -- cbn [join_events In] in Hin.
           destruct Hin as [Hin|[Hin|[]]]; [discriminate |].
           injection Hin as <- _. exact E.
        -- exfalso. exact (join_phase_no_join _ _ _ _ Hin).
Qed.

Lemma C10_empty_ssid_is_unconfigured_witness :
  exists saved,
    snd (handleSave EmptyString "secret" (booted (sample_boot true at_once) home_flash))
    = Restarted saved
    /\ saved !! "ssid" = Some EmptyString
    /\ boot (sample_boot true at_once) saved
       = ((boot_preamble (sample_boot true at_once)
             ++ portal_events (sample_boot true at_once))%list,
          Serving (booted (sample_boot true at_once) saved)).
Proof.
  destruct (C10_empty_ssid_is_unconfigured
              (booted (sample_boot true at_once) home_flash) "secret"
              (sample_boot true at_once) eq_refl) as (Hsave & Hopen & _).
  destruct (Hopen eq_refl) as (Hs & _ & Hboot & _).
  eexists. rewrite Hsave. split; [reflexivity |]. split; [exact Hs | exact Hboot].
Defined.

Section EveryPass.



End EveryPass.


